(** * doggo: nameserver loading, query preparation and response parsing

    A shallow embedding of [cmd/doggo/nameservers.go] and
    [pkg/resolvers/utils.go].  Go strings are byte strings ([string]),
    [int] and [int64] are [Z], the unsigned wire fields ([uint8], [uint16],
    [uint32]) are [N], slices are lists, and a Go [error] result is an
    [option error] next to the value that is returned with it.

    The functions of the two files call into three libraries that are not
    part of them: [net] and [net/url] of Go's standard library and
    [github.com/miekg/dns].  Each library is an interface (a class of
    operations); every theorem about the program is stated for an arbitrary
    implementation of the interface, and a reference implementation of the
    part the examples need is given for running the program on concrete
    inputs. *)

From Stdlib Require Import String Ascii List ZArith NArith Lia Bool.
From Stdlib Require Import DecimalString DecimalPos DecimalZ Permutation.
Import ListNotations.

Open Scope string_scope.
Open Scope Z_scope.
Open Scope list_scope.

(** ** Go basics *)

(** The message of a Go [error] value. *)
Definition error : Type := string.

(** Byte-level helpers on strings. *)
Module bytes.
Fixpoint last (s : string) : option ascii :=
  match s with
  | EmptyString => None
  | String c EmptyString => Some c
  | String _ rest => last rest
  end.

Fixpoint index (c : ascii) (s : string) : bool :=
  match s with
  | EmptyString => false
  | String d rest => if Ascii.eqb c d then true else index c rest
  end.

Definition is_empty (s : string) : bool :=
  match s with
  | EmptyString => true
  | String _ _ => false
  end.

Definition between (lo hi c : ascii) : bool :=
  (N.leb (N_of_ascii lo) (N_of_ascii c) && N.leb (N_of_ascii c) (N_of_ascii hi))%bool.

Definition is_digit (c : ascii) : bool := between "0" "9" c.
Definition is_lower (c : ascii) : bool := between "a" "z" c.
Definition is_upper (c : ascii) : bool := between "A" "Z" c.

Definition to_lower (c : ascii) : ascii :=
  if is_upper c then ascii_of_N (N_of_ascii c + 32) else c.

Fixpoint map (f : ascii -> ascii) (s : string) : string :=
  match s with
  | EmptyString => EmptyString
  | String c rest => String (f c) (map f rest)
  end.

Fixpoint all (p : ascii -> bool) (s : string) : bool :=
  match s with
  | EmptyString => true
  | String c rest => (p c && all p rest)%bool
  end.

(** [cut c s]: the part of [s] before the first [c] and the part after
    it, or [None] when [c] does not occur ([strings.Cut]). *)
Fixpoint cut (c : ascii) (s : string) : option (string * string) :=
  match s with
  | EmptyString => None
  | String d rest =>
      if Ascii.eqb c d then Some (EmptyString, rest)
      else match cut c rest with
           | Some (a, b) => Some (String d a, b)
           | None => None
           end
  end.

(** The same at the last occurrence ([strings.LastIndexByte]). *)
Fixpoint cut_last (c : ascii) (s : string) : option (string * string) :=
  match s with
  | EmptyString => None
  | String d rest =>
      match cut_last c rest with
      | Some (a, b) => Some (String d a, b)
      | None => if Ascii.eqb c d then Some (EmptyString, rest) else None
      end
  end.
End bytes.

(** [strconv.FormatInt(i, 10)] and [strconv.Itoa(i)]: the decimal digits of
    [i], with a leading minus sign for a negative number.  The program never
    asks for another base. *)
Module strconv.
Definition FormatInt (i : Z) : string := NilZero.string_of_int (Z.to_int i).
Definition Itoa (i : Z) : string := FormatInt i.
End strconv.

(** [time.Duration] is an [int64] count of nanoseconds; [Milliseconds]
    divides by 1e6 with Go's integer division, which truncates. *)
Module time.
Definition Duration : Type := Z.
Definition Milliseconds (d : Duration) : Z := Z.quot d 1000000.
End time.

(** [fmt.Sprintf] and [fmt.Errorf] for the two verbs the program uses:
    [%s] with a string and [%d] with an integer.  A verb that has no
    operand, or an operand of the other kind, is written as the library
    marks it. *)
Module fmt.
Inductive operand : Type :=
| Str (s : string)
| Int (i : Z).

Definition verb (v : ascii) (a : operand) : string :=
  match a with
  | Str s => if Ascii.eqb v "s" then s else "%!" ++ String v "(string=" ++ s ++ ")"
  | Int i => if Ascii.eqb v "d" then strconv.FormatInt i
             else "%!" ++ String v "(int=" ++ strconv.FormatInt i ++ ")"
  end%string.

Fixpoint Sprintf (format : string) (a : list operand) : string :=
  match format with
  | EmptyString => EmptyString
  | String c rest =>
      if Ascii.eqb c "%" then
        match rest with
        | EmptyString => "%!(NOVERB)"
        | String v rest' =>
            match a with
            | x :: a' => (verb v x ++ Sprintf rest' a')%string
            | [] => ("%!" ++ String v "(MISSING)" ++ Sprintf rest' [])%string
            end
        end
      else String c (Sprintf rest a)
  end.

(** The message of the error [fmt.Errorf] makes. *)
Definition Errorf (format : string) (a : list operand) : error := Sprintf format a.
End fmt.

(** ** The libraries the two files call *)

(** Modelled from the spec: [net.JoinHostPort] (Go standard library, not
    under src/).  Spec 3: "address is always host:port"; the library puts a
    host that contains a colon (an IPv6 literal) in square brackets. *)
Module net.
Definition JoinHostPort (host port : string) : string :=
  if bytes.index ":" host
  then ("[" ++ host ++ "]:" ++ port)%string
  else (host ++ ":" ++ port)%string.

(** [net.IP] is a byte slice. *)
Definition IP : Type := list N.
End net.

(** [net/url] (Go standard library, not under src/): the parser of raw URL
    strings and the accessors [initNameserver] uses.  [Parse] answers a URL
    or an error. *)
Module url.
Class Lib : Type := {
  URL : Type;
  Parse : string -> URL + error;
  Scheme : URL -> string;
  Hostname : URL -> string;
  Port : URL -> string;
  String : URL -> string
}.
End url.

(** [pkg/config] of this repository is not under src/: [GetDefaultServers]
    reads the system resolver configuration.  Its outcome is the Go result
    tuple: name server addresses, ndots, search domains, and an error. *)
Module config.
Class Lib : Type := {
  GetDefaultServers : list string * Z * list string * option error
}.
End config.

(** [github.com/miekg/dns] (not under src/). *)
Module dns.

Record Question : Type := {
  Name : string;
  Qtype : N;
  Qclass : N
}.

Record RR_Header : Type := {
  Hdr_Name : string;
  Rrtype : N;
  Class : N;
  Ttl : N;
  Rdlength : N
}.

(** The resource records: the twelve concrete types [parseMessage]
    switches on, and [Other] for every other record type of the library. *)
Inductive RR : Type :=
| A (Hdr : RR_Header) (A : net.IP)
| AAAA (Hdr : RR_Header) (AAAA : net.IP)
| CNAME (Hdr : RR_Header) (Target : string)
| CAA (Hdr : RR_Header) (Flag : N) (Tag Value : string)
| HINFO (Hdr : RR_Header) (Cpu Os : string)
| PTR (Hdr : RR_Header) (Ptr : string)
| SRV (Hdr : RR_Header) (Priority Weight Port : N) (Target : string)
| TXT (Hdr : RR_Header) (Txt : list string)
| NS (Hdr : RR_Header) (Ns : string)
| MX (Hdr : RR_Header) (Preference : N) (Mx : string)
| SOA (Hdr : RR_Header) (Ns Mbox : string) (Serial Refresh Retry Expire Minttl : N)
| NAPTR (Hdr : RR_Header) (Order Preference : N) (Flags Service Regexp Replacement : string)
| Other (Hdr : RR_Header) (Rdata : string).

(** [rr.Header()] *)
Definition Header (rr : RR) : RR_Header :=
  match rr with
  | A h _ | AAAA h _ | CNAME h _ | CAA h _ _ _ | HINFO h _ _ | PTR h _
  | SRV h _ _ _ _ | TXT h _ | NS h _ | MX h _ _ | SOA h _ _ _ _ _ _ _
  | NAPTR h _ _ _ _ _ _ | Other h _ => h
  end.

Record MsgHdr : Type := {
  Id : N;
  Response : bool;
  Opcode : Z;
  Authoritative : bool;
  Truncated : bool;
  RecursionDesired : bool;
  RecursionAvailable : bool;
  Zero : bool;
  AuthenticatedData : bool;
  CheckingDisabled : bool;
  Rcode : Z
}.

Record Msg : Type := {
  Msg_Hdr : MsgHdr;
  Compress : bool;
  Question_ : list Question;
  Answer : list RR;
  Ns_ : list RR;
  Extra : list RR
}.

(** The zero value [dns.Msg{}]. *)
Definition zero_Msg : Msg :=
  {| Msg_Hdr := {| Id := 0%N; Response := false; Opcode := 0;
                   Authoritative := false; Truncated := false;
                   RecursionDesired := false; RecursionAvailable := false;
                   Zero := false; AuthenticatedData := false;
                   CheckingDisabled := false; Rcode := 0 |};
     Compress := false; Question_ := []; Answer := []; Ns_ := []; Extra := [] |}.

Definition with_Id (m : Msg) (id : N) : Msg :=
  let h := Msg_Hdr m in
  {| Msg_Hdr := {| Id := id; Response := Response h; Opcode := Opcode h;
                   Authoritative := Authoritative h; Truncated := Truncated h;
                   RecursionDesired := RecursionDesired h;
                   RecursionAvailable := RecursionAvailable h;
                   Zero := Zero h; AuthenticatedData := AuthenticatedData h;
                   CheckingDisabled := CheckingDisabled h; Rcode := Rcode h |};
     Compress := Compress m; Question_ := Question_ m; Answer := Answer m;
     Ns_ := Ns_ m; Extra := Extra m |}.

Definition with_RecursionDesired (m : Msg) (rd : bool) : Msg :=
  let h := Msg_Hdr m in
  {| Msg_Hdr := {| Id := Id h; Response := Response h; Opcode := Opcode h;
                   Authoritative := Authoritative h; Truncated := Truncated h;
                   RecursionDesired := rd;
                   RecursionAvailable := RecursionAvailable h;
                   Zero := Zero h; AuthenticatedData := AuthenticatedData h;
                   CheckingDisabled := CheckingDisabled h; Rcode := Rcode h |};
     Compress := Compress m; Question_ := Question_ m; Answer := Answer m;
     Ns_ := Ns_ m; Extra := Extra m |}.

Definition with_Question (m : Msg) (qs : list Question) : Msg :=
  {| Msg_Hdr := Msg_Hdr m; Compress := Compress m; Question_ := qs;
     Answer := Answer m; Ns_ := Ns_ m; Extra := Extra m |}.

(** Domain names: [dns.IsFqdn], [dns.Fqdn], [dns.CountLabel]. *)
Class Names : Type := {
  IsFqdn : string -> bool;
  Fqdn : string -> string;
  CountLabel : string -> Z
}.

(** [dns.Id()]: a 16-bit message id read from the system's random source.
    [Entropy] is the state of that source; a call consumes some of it. *)
Class IdSource : Type := {
  Entropy : Type;
  NextId : Entropy -> N * Entropy
}.

(** Text forms: [dns.Class(c).String()], [dns.Type(t).String()], the table
    [dns.RcodeToString] (a Go map from int to string), [net.IP.String()] and
    the [String()] method of a record. *)
Class Text : Type := {
  ClassString : N -> string;
  TypeString : N -> string;
  RcodeToString : Z -> option string;
  IPString : net.IP -> string;
  RRString : RR -> string
}.

(** Indexing a Go map of strings: the zero value for a missing key. *)
Definition map_index (m : Z -> option string) (k : Z) : string :=
  match m k with
  | Some v => v
  | None => EmptyString
  end.

End dns.

(** ** A state monad for the code that draws message ids *)

Definition State (S A : Type) : Type := S -> A * S.

Definition ret {S A : Type} (a : A) : State S A := fun s => (a, s).

Definition bind {S A B : Type} (c : State S A) (k : A -> State S B) : State S B :=
  fun s => let (a, s') := c s in k a s'.

Notation "x <- c ;; k" := (bind c (fun x => k))
  (at level 61, c at next level, right associativity).

(** [for _, x := range xs { acc = body(acc, x) }] in the monad. *)
Fixpoint for_range {S A B : Type} (xs : list A) (body : B -> A -> State S B)
    (acc : B) : State S B :=
  match xs with
  | [] => ret acc
  | x :: rest => acc' <- body acc x ;; for_range rest body acc'
  end.

(** ** pkg/resolvers/utils.go *)

Module resolvers.

(** [resolvers.Options]: the fields [loadNameservers] writes. *)
Record Options : Type := {
  Ndots : Z;
  SearchList : list string
}.

Record Answer : Type := {
  Ans_Name : string;
  Ans_Type : string;
  Ans_Class : string;
  Ans_TTL : string;
  Ans_Address : string;
  Ans_RTT : string;
  Ans_Nameserver : string
}.

Record Authority : Type := {
  Auth_Name : string;
  Auth_Type : string;
  Auth_Class : string;
  Auth_TTL : string;
  Auth_MName : string;
  Auth_Nameserver : string;
  Auth_RTT : string;
  Auth_Status : string
}.

Record Response : Type := {
  Answers : list Answer;
  Authorities : list Authority
}.

(** utils.go:41-68 *)
Definition constructPossibleQuestions {D : dns.Names}
    (name : string) (ndots : Z) (searchList : list string) : list string :=
  if dns.IsFqdn name then [name]
  else
    let hasNdots := dns.CountLabel name >? ndots in
    let name := dns.Fqdn name in
    let names : list string := [] in
    let names := if hasNdots then names ++ [name] else names in
    let names :=
      fold_left (fun names s => names ++ [dns.Fqdn (name ++ s)%string])
                searchList names in
    let names := if negb hasNdots then names ++ [name] else names in
    names.

(** utils.go:13-34.  The loop body draws one id and appends one message. *)
Definition prepareMessages {D : dns.Names} {I : dns.IdSource}
    (q : dns.Question) (ndots : Z) (searchList : list string)
    : State dns.Entropy (list dns.Msg) :=
  let possibleQNames := constructPossibleQuestions (dns.Name q) ndots searchList in
  let messages : list dns.Msg := [] in
  for_range possibleQNames
    (fun messages qName =>
       let msg := dns.zero_Msg in
       id <- dns.NextId ;;
       let msg := dns.with_Id msg id in
       let msg := dns.with_RecursionDesired msg true in
       let msg := dns.with_Question msg
                    [ {| dns.Name := qName;
                         dns.Qtype := dns.Qtype q;
                         dns.Qclass := dns.Qclass q |} ] in
       ret (messages ++ [msg]))
    messages.

(** utils.go:77-107, the body of the loop over [msg.Ns]: [None] is the
    [continue] of a record that is not an SOA. *)
Definition parseAuthority {T : dns.Text}
    (msg : dns.Msg) (timeTaken server : string) (ns : dns.RR) : option Authority :=
  match ns with
  | dns.SOA _ soaNs soaMbox soaSerial soaRefresh soaRetry soaExpire soaMinttl =>
      let mname :=
        (soaNs ++ " " ++ soaMbox ++
         " " ++ strconv.FormatInt (Z.of_N soaSerial) ++
         " " ++ strconv.FormatInt (Z.of_N soaRefresh) ++
         " " ++ strconv.FormatInt (Z.of_N soaRetry) ++
         " " ++ strconv.FormatInt (Z.of_N soaExpire) ++
         " " ++ strconv.FormatInt (Z.of_N soaMinttl))%string in
      let h := dns.Header ns in
      let name := dns.Hdr_Name h in
      let qclass := dns.ClassString (dns.Class h) in
      let ttl := (strconv.FormatInt (Z.of_N (dns.Ttl h)) ++ "s")%string in
      let qtype := dns.TypeString (dns.Rrtype h) in
      Some {| Auth_Name := name;
              Auth_Type := qtype;
              Auth_TTL := ttl;
              Auth_Class := qclass;
              Auth_MName := mname;
              Auth_Nameserver := server;
              Auth_RTT := timeTaken;
              Auth_Status := dns.map_index dns.RcodeToString (dns.Rcode (dns.Msg_Hdr msg)) |}
  | _ => None
  end.

(** utils.go:110-138, the type switch that renders the address. *)
Definition answerAddress {T : dns.Text} (a : dns.RR) : string :=
  let addr := EmptyString in
  match a with
  | dns.A _ ip => dns.IPString ip
  | dns.AAAA _ ip => dns.IPString ip
  | dns.CNAME _ target => target
  | dns.CAA _ _ tag value => (tag ++ " " ++ value)%string
  | dns.HINFO _ cpu os => (cpu ++ " " ++ os)%string
  | dns.PTR _ ptr => ptr
  | dns.SRV _ priority weight port target =>
      (strconv.Itoa (Z.of_N priority) ++ " " ++
       strconv.Itoa (Z.of_N weight) ++ " " ++
       target ++ ":" ++ strconv.Itoa (Z.of_N port))%string
  | dns.TXT _ _ => dns.RRString a
  | dns.NS _ ns => ns
  | dns.MX _ preference mx => (strconv.Itoa (Z.of_N preference) ++ " " ++ mx)%string
  | dns.SOA _ _ _ _ _ _ _ _ => dns.RRString a
  | dns.NAPTR _ _ _ _ _ _ _ => dns.RRString a
  | dns.Other _ _ => addr
  end.

(** utils.go:109-154, the body of the loop over [msg.Answer]. *)
Definition parseAnswer {T : dns.Text} (timeTaken server : string) (a : dns.RR) : Answer :=
  let addr := answerAddress a in
  let h := dns.Header a in
  let name := dns.Hdr_Name h in
  let qclass := dns.ClassString (dns.Class h) in
  let ttl := (strconv.FormatInt (Z.of_N (dns.Ttl h)) ++ "s")%string in
  let qtype := dns.TypeString (dns.Rrtype h) in
  {| Ans_Name := name;
     Ans_Type := qtype;
     Ans_TTL := ttl;
     Ans_Class := qclass;
     Ans_Address := addr;
     Ans_RTT := timeTaken;
     Ans_Nameserver := server |}.

(** utils.go:72-156.  [resp] starts as the zero [Response]; each loop
    appends to one of its slices. *)
Definition parseMessage {T : dns.Text}
    (msg : dns.Msg) (rtt : time.Duration) (server : string) : Response :=
  let resp := {| Answers := []; Authorities := [] |} in
  let timeTaken := fmt.Sprintf "%dms" [fmt.Int (time.Milliseconds rtt)] in
  let resp :=
    fold_left
      (fun resp ns =>
         match parseAuthority msg timeTaken server ns with
         | None => resp
         | Some auth =>
             {| Answers := Answers resp;
                Authorities := Authorities resp ++ [auth] |}
         end)
      (dns.Ns_ msg) resp in
  let resp :=
    fold_left
      (fun resp a =>
         let ans := parseAnswer timeTaken server a in
         {| Answers := Answers resp ++ [ans];
            Authorities := Authorities resp |})
      (dns.Answer msg) resp in
  resp.

End resolvers.

(** ** cmd/doggo/nameservers.go *)

Module doggo.

(** nameservers.go:11-22 *)
Definition DefaultTLSPort : string := "853".
Definition DefaultUDPPort : string := "53".
Definition DefaultTCPPort : string := "53".
Definition UDPResolver : string := "udp".
Definition DOHResolver : string := "doh".
Definition TCPResolver : string := "tcp".
Definition DOTResolver : string := "dot".

(** [Nameserver], [QueryFlags] and [Hub] are declared in another file of the
    package; these are the fields nameservers.go reads and writes. *)
Record Nameserver : Type := {
  Address : string;
  Type_ : string
}.

Definition with_Type (ns : Nameserver) (t : string) : Nameserver :=
  {| Address := Address ns; Type_ := t |}.

Definition with_Address (ns : Nameserver) (a : string) : Nameserver :=
  {| Address := a; Type_ := Type_ ns |}.

Record QueryFlags : Type := {
  QF_Nameservers : list string;
  QF_Ndots : Z;
  QF_UseSearchList : bool
}.

Record Hub : Type := {
  Flags : QueryFlags;
  ResolverOpts : resolvers.Options;
  Nameservers : list Nameserver
}.

Definition with_Nameservers (hub : Hub) (l : list Nameserver) : Hub :=
  {| Flags := Flags hub; ResolverOpts := ResolverOpts hub; Nameservers := l |}.

Definition with_Ndots (hub : Hub) (ndots : Z) : Hub :=
  {| Flags := Flags hub;
     ResolverOpts := {| resolvers.Ndots := ndots;
                        resolvers.SearchList := resolvers.SearchList (ResolverOpts hub) |};
     Nameservers := Nameservers hub |}.

Definition with_SearchList (hub : Hub) (search : list string) : Hub :=
  {| Flags := Flags hub;
     ResolverOpts := {| resolvers.Ndots := resolvers.Ndots (ResolverOpts hub);
                        resolvers.SearchList := search |};
     Nameservers := Nameservers hub |}.

(** nameservers.go:73-112.  The four tests on [u.Scheme] are separate [if]
    statements, run one after the other on the same [ns]. *)
Definition initNameserver {U : url.Lib} (n : string) : Nameserver * option error :=
  let ns := {| Type_ := UDPResolver;
               Address := net.JoinHostPort n DefaultUDPPort |} in
  match url.Parse n with
  | inr err => (ns, Some err)
  | inl u =>
      let ns :=
        if (url.Scheme u =? "https")%string then
          let ns := with_Type ns DOHResolver in
          with_Address ns (url.String u)
        else ns in
      let ns :=
        if (url.Scheme u =? "tls")%string then
          let ns := with_Type ns DOTResolver in
          if (url.Port u =? "")%string
          then with_Address ns (net.JoinHostPort (url.Hostname u) DefaultTLSPort)
          else with_Address ns (net.JoinHostPort (url.Hostname u) (url.Port u))
        else ns in
      let ns :=
        if (url.Scheme u =? "tcp")%string then
          let ns := with_Type ns TCPResolver in
          if (url.Port u =? "")%string
          then with_Address ns (net.JoinHostPort (url.Hostname u) DefaultTCPPort)
          else with_Address ns (net.JoinHostPort (url.Hostname u) (url.Port u))
        else ns in
      let ns :=
        if (url.Scheme u =? "udp")%string then
          let ns := with_Type ns UDPResolver in
          if (url.Port u =? "")%string
          then with_Address ns (net.JoinHostPort (url.Hostname u) DefaultUDPPort)
          else with_Address ns (net.JoinHostPort (url.Hostname u) (url.Port u))
        else ns in
      (ns, None)
  end.

(** nameservers.go:57-71.  The Go result is a 4-tuple. *)
Definition getDefaultServers {C : config.Lib}
    : list Nameserver * Z * list string * option error :=
  match config.GetDefaultServers with
  | (_, _, _, Some err) => ([], 0, [], Some err)
  | (dnsServers, ndots, search, None) =>
      let servers : list Nameserver := [] in
      let servers :=
        fold_left
          (fun servers s =>
             let ns := {| Type_ := UDPResolver;
                          Address := net.JoinHostPort s DefaultUDPPort |} in
             servers ++ [ns])
          dnsServers servers in
      (servers, ndots, search, None)
  end.

(** nameservers.go:27-36, the loop over [hub.QueryFlags.Nameservers]: the
    hub as the loop leaves it, and the error of the [return] inside it. *)
Fixpoint loadUserNameservers {U : url.Lib} (srvs : list string) (hub : Hub)
    : Hub * option error :=
  match srvs with
  | [] => (hub, None)
  | srv :: rest =>
      match initNameserver srv with
      | (_, Some _) => (hub, Some (fmt.Errorf "error parsing nameserver: %s" [fmt.Str srv]))
      | (ns, None) =>
          let hub :=
            if (negb (Address ns =? "")%string && negb (Type_ ns =? "")%string)%bool
            then with_Nameservers hub (Nameservers hub ++ [ns])
            else hub in
          loadUserNameservers rest hub
      end
  end.

(** nameservers.go:26-55.  The method mutates [hub] in place and returns an
    error: the result is the hub after the call and the error. *)
Definition loadNameservers {U : url.Lib} {C : config.Lib} (hub : Hub) : Hub * option error :=
  match loadUserNameservers (QF_Nameservers (Flags hub)) hub with
  | (hub, Some err) => (hub, Some err)
  | (hub, None) =>
      if (length (Nameservers hub) =? 0)%nat then
        match getDefaultServers with
        | (_, _, _, Some _) =>
            (hub, Some (fmt.Errorf "error fetching system default nameserver" []))
        | (ns, ndots, search, None) =>
            let hub :=
              if QF_Ndots (Flags hub) =? 0 then with_Ndots hub ndots else hub in
            let hub :=
              if ((0 <? length search)%nat && QF_UseSearchList (Flags hub))%bool
              then with_SearchList hub search else hub in
            let hub := with_Nameservers hub (Nameservers hub ++ ns) in
            (hub, None)
        end
      else (hub, None)
  end.

End doggo.

(** ** Reference implementations of the libraries

    Used to run the program on concrete inputs.  No theorem about the
    program depends on them. *)

(** Modelled from the spec: [dns.IsFqdn], [dns.Fqdn] and [dns.CountLabel]
    (miekg/dns, not under src/).  Spec 4.3: a name is fully qualified when
    it "ends with the root terminator", it is made fully qualified by
    "append root terminator", and its label count is the number of its
    dot-separated labels ("host" has 1, "a.b.c" has 3).  Escaped dots are
    outside this model. *)
Module dnsref.

Definition IsFqdn (s : string) : bool :=
  match bytes.last s with
  | Some c => Ascii.eqb c "."
  | None => false
  end.

Definition Fqdn (s : string) : string :=
  if IsFqdn s then s else (s ++ ".")%string.

(** The dots that are followed by another byte. *)
Fixpoint inner_dots (s : string) : Z :=
  match s with
  | EmptyString => 0
  | String c rest =>
      if (Ascii.eqb c "." && negb (bytes.is_empty rest))%bool
      then 1 + inner_dots rest
      else inner_dots rest
  end.

Definition CountLabel (s : string) : Z :=
  if (s =? ".")%string then 0 else inner_dots s + 1.

Definition names : dns.Names :=
  {| dns.IsFqdn := IsFqdn; dns.Fqdn := Fqdn; dns.CountLabel := CountLabel |}.

(** Modelled from the spec: [dns.Id] (miekg/dns, not under src/).  Spec 3
    and 4.4: the transaction id is a uniform random [uint16].  The entropy
    is the stream of random bytes still to be read; an id is the next two
    bytes, big-endian. *)
Definition NextId (e : nat -> N) : N * (nat -> N) :=
  ((e 0%nat mod 256) * 256 + e 1%nat mod 256, fun i => e (S (S i)))%N.

Definition ids : dns.IdSource :=
  {| dns.Entropy := nat -> N; dns.NextId := NextId |}.

End dnsref.

(** Modelled from the spec: [url.Parse] and the methods [Hostname], [Port]
    and [String] of [url.URL] (net/url, not under src/), on the name server
    grammar of spec 6, "[scheme://]host[:port]", with an optional path
    after the host.  The model covers raw strings made of letters, digits
    and the bytes [- . _ ~ / :] only: no query, fragment, user information,
    percent escape or bracketed IPv6 literal.  On those it follows the
    library: the scheme is what precedes the first colon when it starts
    with a letter, and is stored in lower case; a string without a scheme
    whose first path segment has a colon is an error; after "//" comes the
    host, up to the next slash, with an optional decimal port.  A raw
    string outside the covered alphabet is answered by an error of the
    model. *)
Module urlref.

Record URL : Type := {
  Scheme : string;
  Opaque : string;
  Host : string;
  Path : string;
  OmitHost : bool
}.

Definition covered_byte (c : ascii) : bool :=
  (bytes.is_lower c || bytes.is_upper c || bytes.is_digit c ||
   bytes.index c "-._~/:")%bool.

Definition covered (raw : string) : bool := bytes.all covered_byte raw.

(** [getScheme]: [first] says that the byte at hand is the first one, [acc]
    holds the bytes already passed. *)
Fixpoint getScheme_from (first : bool) (acc s raw : string)
    : (string * string) + error :=
  match s with
  | EmptyString => inl (EmptyString, raw)
  | String c rest =>
      if (bytes.is_lower c || bytes.is_upper c)%bool then
        getScheme_from false (acc ++ String c EmptyString)%string rest raw
      else if (bytes.is_digit c || bytes.index c "+-.")%bool then
        if first then inl (EmptyString, raw)
        else getScheme_from false (acc ++ String c EmptyString)%string rest raw
      else if Ascii.eqb c ":" then
        if first then inr "missing protocol scheme"
        else inl (acc, rest)
      else inl (EmptyString, raw)
  end.

Definition getScheme (raw : string) : (string * string) + error :=
  getScheme_from true EmptyString raw raw.

Definition validOptionalPort (port : string) : bool :=
  match port with
  | EmptyString => true
  | String c digits => (Ascii.eqb c ":" && bytes.all bytes.is_digit digits)%bool
  end.

(** The part of [s] before the first slash. *)
Definition first_segment (s : string) : string :=
  match bytes.cut "/" s with
  | Some (seg, _) => seg
  | None => s
  end.

(** [authority, rest = rest[2:], ""], then cut at the first slash, which
    stays with the rest. *)
Definition split_authority (after_slashes : string) : string * string :=
  match bytes.cut "/" after_slashes with
  | Some (authority, rest) => (authority, String "/" rest)
  | None => (after_slashes, EmptyString)
  end.

Definition parseHost (host : string) : string + error :=
  match bytes.cut_last ":" host with
  | Some (_, digits) =>
      if validOptionalPort (String ":" digits) then inl host
      else inr "invalid port after host"
  | None => inl host
  end.

Definition Parse (raw : string) : URL + error :=
  if negb (covered raw) then inr "outside the modelled part of net/url"
  else
    match getScheme raw with
    | inr err => inr err
    | inl (scheme, rest) =>
        let scheme := bytes.map bytes.to_lower scheme in
        if (negb (String.prefix "/" rest) && negb (bytes.is_empty scheme))%bool then
          inl {| Scheme := scheme; Opaque := rest; Host := EmptyString;
                 Path := EmptyString; OmitHost := false |}
        else if (negb (String.prefix "/" rest) &&
                 bytes.index ":" (first_segment rest))%bool then
          inr "first path segment in URL cannot contain colon"
        else if ((negb (bytes.is_empty scheme) || negb (String.prefix "///" rest))
                 && String.prefix "//" rest)%bool then
          let (authority, rest) :=
            split_authority (String.substring 2 (String.length rest - 2) rest) in
          match parseHost authority with
          | inr err => inr err
          | inl host =>
              inl {| Scheme := scheme; Opaque := EmptyString; Host := host;
                     Path := rest; OmitHost := false |}
          end
        else
          inl {| Scheme := scheme; Opaque := EmptyString; Host := EmptyString;
                 Path := rest;
                 OmitHost := (negb (bytes.is_empty scheme) && String.prefix "/" rest)%bool |}
    end.

(** [splitHostPort] on [u.Host]. *)
Definition splitHostPort (hostPort : string) : string * string :=
  match bytes.cut_last ":" hostPort with
  | Some (host, port) =>
      if validOptionalPort (String ":" port) then (host, port)
      else (hostPort, EmptyString)
  | None => (hostPort, EmptyString)
  end.

Definition Hostname (u : URL) : string := fst (splitHostPort (Host u)).
Definition Port (u : URL) : string := snd (splitHostPort (Host u)).

(** [u.String()]: the scheme and a colon, then the opaque part, or "//",
    the host and the path. *)
Definition String_ (u : URL) : string :=
  let buf := if bytes.is_empty (Scheme u) then EmptyString
             else (Scheme u ++ ":")%string in
  if negb (bytes.is_empty (Opaque u)) then (buf ++ Opaque u)%string
  else
    let buf :=
      if (negb (bytes.is_empty (Scheme u)) || negb (bytes.is_empty (Host u)))%bool then
        if (OmitHost u && bytes.is_empty (Host u))%bool then buf
        else
          let buf :=
            if (negb (bytes.is_empty (Host u)) || negb (bytes.is_empty (Path u)))%bool
            then (buf ++ "//")%string else buf in
          (buf ++ Host u)%string
      else buf in
    let path := Path u in
    let buf :=
      if (negb (bytes.is_empty path) && negb (String.prefix "/" path)
          && negb (bytes.is_empty (Host u)))%bool
      then (buf ++ "/")%string else buf in
    let buf :=
      if (bytes.is_empty buf && bytes.index ":" (first_segment path))%bool
      then (buf ++ "./")%string else buf in
    (buf ++ path)%string.

Definition lib : url.Lib :=
  {| url.URL := URL; url.Parse := Parse; url.Scheme := Scheme;
     url.Hostname := Hostname; url.Port := Port; url.String := String_ |}.

End urlref.

(** ** Vocabulary of the statements *)

(** The search-list candidates of a name: the fully qualified name followed
    by a suffix, made fully qualified, for each suffix in list order. *)
Definition with_suffixes {D : dns.Names} (name : string) (searchList : list string)
    : list string :=
  map (fun s => dns.Fqdn (dns.Fqdn name ++ s)%string) searchList.

(** [draws n e]: the ids of [n] successive calls of [dns.Id] from the
    entropy [e], in call order, and the entropy left. *)
Fixpoint draws {I : dns.IdSource} (n : nat) (e : dns.Entropy)
    : list N * dns.Entropy :=
  match n with
  | O => ([], e)
  | S k => let (id, e') := dns.NextId e in
           let (ids, e'') := draws k e' in
           (id :: ids, e'')
  end.

(** The message that asks [q] under the name [qName] with id [id]. *)
Definition query_message (q : dns.Question) (qName : string) (id : N) : dns.Msg :=
  dns.with_Question
    (dns.with_RecursionDesired (dns.with_Id dns.zero_Msg id) true)
    [ {| dns.Name := qName; dns.Qtype := dns.Qtype q; dns.Qclass := dns.Qclass q |} ].

(** The messages that ask [q] under a list of names with a list of ids,
    name and id paired by position. *)
Definition built (q : dns.Question) (names : list string) (ids : list N)
    : list dns.Msg :=
  map (fun p => query_message q (fst p) (snd p)) (combine names ids).

(** The names a message asks about. *)
Definition question_names (m : dns.Msg) : list string :=
  map dns.Name (dns.Question_ m).

Definition message_id (m : dns.Msg) : N := dns.Id (dns.Msg_Hdr m).

Definition is_SOA (rr : dns.RR) : bool :=
  match rr with
  | dns.SOA _ _ _ _ _ _ _ _ => true
  | _ => false
  end.

(** The composite string of an SOA as the specification words it: the name
    server, the mailbox and the five numbers in base 10, joined by single
    spaces.  Empty for a record that is not an SOA. *)
Definition soa_composite (rr : dns.RR) : string :=
  match rr with
  | dns.SOA _ ns mbox serial refresh retry expire minttl =>
      String.concat " "
        [ns; mbox;
         strconv.FormatInt (Z.of_N serial); strconv.FormatInt (Z.of_N refresh);
         strconv.FormatInt (Z.of_N retry); strconv.FormatInt (Z.of_N expire);
         strconv.FormatInt (Z.of_N minttl)]
  | _ => EmptyString
  end.

(** The rendering table of the specification (section 4.5), row by row:
    the address text of a record whose type has a row, and [None] for a
    record type without one. *)
Definition rendering_table {T : dns.Text} (rr : dns.RR) : option string :=
  match rr with
  | dns.A _ ip | dns.AAAA _ ip => Some (dns.IPString ip)
  | dns.CNAME _ target | dns.PTR _ target | dns.NS _ target => Some target
  | dns.CAA _ _ tag value => Some (String.concat " " [tag; value])
  | dns.HINFO _ cpu os => Some (String.concat " " [cpu; os])
  | dns.SRV _ priority weight port target =>
      Some (String.concat " "
              [strconv.Itoa (Z.of_N priority); strconv.Itoa (Z.of_N weight);
               (target ++ ":" ++ strconv.Itoa (Z.of_N port))%string])
  | dns.MX _ preference exchange =>
      Some (String.concat " " [strconv.Itoa (Z.of_N preference); exchange])
  | dns.TXT _ _ | dns.SOA _ _ _ _ _ _ _ _ | dns.NAPTR _ _ _ _ _ _ _ =>
      Some (dns.RRString rr)
  | dns.Other _ _ => None
  end.

(** The endpoint a system-provided address is wrapped into. *)
Definition default_endpoint (s : string) : doggo.Nameserver :=
  {| doggo.Type_ := doggo.UDPResolver;
     doggo.Address := net.JoinHostPort s doggo.DefaultUDPPort |}.

(** The loop of [loadNameservers] ran to its end and left no endpoint: the
    condition under which the system defaults are asked for. *)
Definition falls_back {U : url.Lib} (hub : doggo.Hub) : Prop :=
  snd (doggo.loadUserNameservers (doggo.QF_Nameservers (doggo.Flags hub)) hub) = None
  /\ doggo.Nameservers
       (fst (doggo.loadUserNameservers (doggo.QF_Nameservers (doggo.Flags hub)) hub)) = [].

(** The parts of the outcome of the system defaults provider. *)
Definition system_servers {C : config.Lib} : list string :=
  fst (fst (fst config.GetDefaultServers)).
Definition system_ndots {C : config.Lib} : Z :=
  snd (fst (fst config.GetDefaultServers)).
Definition system_search {C : config.Lib} : list string :=
  snd (fst config.GetDefaultServers).
Definition system_failure {C : config.Lib} : option error :=
  snd config.GetDefaultServers.

(** ** Inputs of the examples *)

(** A hub as the command line leaves it before [loadNameservers]: the
    flags of the user, no resolver option and no endpoint yet. *)
Definition fresh_hub (nameservers : list string) (ndots : Z) (useSearch : bool)
    : doggo.Hub :=
  {| doggo.Flags := {| doggo.QF_Nameservers := nameservers;
                       doggo.QF_Ndots := ndots;
                       doggo.QF_UseSearchList := useSearch |};
     doggo.ResolverOpts := {| resolvers.Ndots := ndots; resolvers.SearchList := [] |};
     doggo.Nameservers := [] |}.

(** A system configuration with one name server. *)
Definition system_one : config.Lib :=
  {| config.GetDefaultServers := (["127.0.0.53"], 1, ["lan"], None) |}.

(** A system configuration that is read without error and lists no name
    server (a resolv.conf without a nameserver line). *)
Definition system_none : config.Lib :=
  {| config.GetDefaultServers := ([], 1, [], None) |}.

(** A system whose configuration cannot be read. *)
Definition system_error : config.Lib :=
  {| config.GetDefaultServers := ([], 0, [], Some "open /etc/resolv.conf: no such file or directory") |}.

(** A random source that delivers zero bytes only. *)
Definition zero_entropy : nat -> N := fun _ => 0%N.

Definition host_question : dns.Question :=
  {| dns.Name := "host"; dns.Qtype := 1; dns.Qclass := 1 |}.

(** ** Vocabulary of the further properties *)

(** The name that is asked for as it stands: the name itself when it is
    fully qualified, the name made fully qualified otherwise. *)
Definition bare_name {D : dns.Names} (name : string) : string :=
  if dns.IsFqdn name then name else dns.Fqdn name.

(** [fields s]: the parts of [s] between its spaces, in order
    ([strings.Split(s, " ")]). *)
Fixpoint fields (s : string) : list string :=
  match s with
  | EmptyString => [EmptyString]
  | String c rest =>
      if Ascii.eqb c " " then EmptyString :: fields rest
      else match fields rest with
           | f :: fs => String c f :: fs
           | [] => [String c EmptyString]
           end
  end.

(** The message [msg] with other answer and authority sections. *)
Definition with_sections (msg : dns.Msg) (answer ns : list dns.RR) : dns.Msg :=
  {| dns.Msg_Hdr := dns.Msg_Hdr msg; dns.Compress := dns.Compress msg;
     dns.Question_ := dns.Question_ msg; dns.Answer := answer; dns.Ns_ := ns;
     dns.Extra := dns.Extra msg |}.

(** A message that has the result code and the answer and authority
    sections of [msg] and is zero everywhere else. *)
Definition read_part (msg : dns.Msg) : dns.Msg :=
  {| dns.Msg_Hdr :=
       {| dns.Id := 0%N; dns.Response := false; dns.Opcode := 0;
          dns.Authoritative := false; dns.Truncated := false;
          dns.RecursionDesired := false; dns.RecursionAvailable := false;
          dns.Zero := false; dns.AuthenticatedData := false;
          dns.CheckingDisabled := false;
          dns.Rcode := dns.Rcode (dns.Msg_Hdr msg) |};
     dns.Compress := false; dns.Question_ := [];
     dns.Answer := dns.Answer msg; dns.Ns_ := dns.Ns_ msg; dns.Extra := [] |}.

(** The endpoints of a list of strings that pass the test of the loader
    (a non-empty address and a non-empty type), in list order. *)
Definition kept_endpoints {U : url.Lib} (srvs : list string) : list doggo.Nameserver :=
  filter (fun ns => (negb (doggo.Address ns =? "")%string
                     && negb (doggo.Type_ ns =? "")%string)%bool)
         (map (fun srv => fst (doggo.initNameserver srv)) srvs).

(** The schemes [initNameserver] has a branch for. *)
Definition known_schemes : list string := ["https"; "tls"; "tcp"; "udp"].

(** * Theorems *)

(** ** Loops that append *)

Lemma fold_left_snoc {A B : Type} (f : A -> B) (l : list A) (acc : list B) :
  fold_left (fun acc x => acc ++ [f x]) l acc = acc ++ map f l.
Proof.
  revert acc; induction l as [|x l IH]; intros acc; simpl.
  - now rewrite app_nil_r.
  - rewrite IH, <- app_assoc. reflexivity.
Qed.

Lemma append_empty_r (s : string) : (s ++ "")%string = s.
Proof. induction s as [|c s IH]; simpl; [reflexivity | now rewrite IH]. Qed.

Lemma app_singleton_not_nil {A : Type} (l : list A) (x : A) : l ++ [x] <> [].
Proof. destruct l; discriminate. Qed.

(** ** Query Name Expander *)

Section Expander.
Context {D : dns.Names}.

Lemma expand_unqualified (name : string) (ndots : Z) (searchList : list string) :
  dns.IsFqdn name = false ->
  resolvers.constructPossibleQuestions name ndots searchList =
    if dns.CountLabel name >? ndots
    then dns.Fqdn name :: with_suffixes name searchList
    else with_suffixes name searchList ++ [dns.Fqdn name].
Proof.
  intros Hq. unfold resolvers.constructPossibleQuestions, with_suffixes.
  rewrite Hq. destruct (dns.CountLabel name >? ndots); simpl.
  - now rewrite fold_left_snoc.
  - now rewrite fold_left_snoc.
Qed.

(** C1: for a name that is not fully qualified, the candidates are the bare
    fully qualified name followed by the search-list candidates in list
    order when the label count is strictly greater than ndots, and the
    search-list candidates in list order followed by the bare fully
    qualified name otherwise; the result is never empty. *)
Theorem C1_expand_order (name : string) (ndots : Z) (searchList : list string) :
  dns.IsFqdn name = false ->
  (ndots < dns.CountLabel name ->
     resolvers.constructPossibleQuestions name ndots searchList =
       dns.Fqdn name :: with_suffixes name searchList)
  /\ (dns.CountLabel name <= ndots ->
     resolvers.constructPossibleQuestions name ndots searchList =
       with_suffixes name searchList ++ [dns.Fqdn name])
  /\ length (with_suffixes name searchList) = length searchList
  /\ resolvers.constructPossibleQuestions name ndots searchList <> [].
Proof.
  intros Hq. rewrite (expand_unqualified _ _ _ Hq).
  repeat split.
  - intros Hlt. now replace (dns.CountLabel name >? ndots) with true by lia.
  - intros Hle. now replace (dns.CountLabel name >? ndots) with false by lia.
  - apply length_map.
  - destruct (dns.CountLabel name >? ndots).
    + discriminate.
    + apply app_singleton_not_nil.
Qed.

(** C8: a name that is already fully qualified is returned alone and
    unchanged, whatever ndots and the search list are. *)
Theorem C8_expand_qualified (name : string) (ndots : Z) (searchList : list string) :
  dns.IsFqdn name = true ->
  resolvers.constructPossibleQuestions name ndots searchList = [name].
Proof.
  intros Hq. unfold resolvers.constructPossibleQuestions. now rewrite Hq.
Qed.

End Expander.

Example expand_host :
  resolvers.constructPossibleQuestions (D:=dnsref.names) "host" 1 ["corp.local"]
  = ["host.corp.local."; "host."].
Proof. reflexivity. Qed.

Example expand_abc :
  resolvers.constructPossibleQuestions (D:=dnsref.names) "a.b.c" 1 ["corp.local"]
  = ["a.b.c."; "a.b.c.corp.local."].
Proof. reflexivity. Qed.

Example expand_empty_search :
  resolvers.constructPossibleQuestions (D:=dnsref.names) "host" 0 [] = ["host."]
  /\ resolvers.constructPossibleQuestions (D:=dnsref.names) "host" 5 [] = ["host."].
Proof. split; reflexivity. Qed.

Lemma C1_expand_order_witness :
  dns.IsFqdn (Names:=dnsref.names) "host" = false
  /\ resolvers.constructPossibleQuestions (D:=dnsref.names) "host" 1 ["corp.local"]
     = with_suffixes (D:=dnsref.names) "host" ["corp.local"] ++ ["host."].
Proof.
  split.
  - reflexivity.
  - apply (C1_expand_order (D:=dnsref.names) "host" 1 ["corp.local"]).
    + reflexivity.
    + vm_compute. discriminate.
Defined.

Lemma C8_expand_qualified_witness :
  dns.IsFqdn (Names:=dnsref.names) "example.com." = true
  /\ resolvers.constructPossibleQuestions (D:=dnsref.names) "example.com." 2 ["corp.local"]
     = ["example.com."].
Proof.
  split.
  - reflexivity.
  - apply (C8_expand_qualified (D:=dnsref.names) "example.com." 2 ["corp.local"]).
    reflexivity.
Defined.

(** ** Message Builder *)

Section Builder.
Context {D : dns.Names} {I : dns.IdSource}.

Lemma draws_length (n : nat) (e : dns.Entropy) : length (fst (draws n e)) = n.
Proof.
  revert e; induction n as [|n IH]; intros e; simpl; [reflexivity|].
  destruct (dns.NextId e) as [id e']. specialize (IH e').
  destruct (draws n e') as [ids e'']. simpl in *. now rewrite IH.
Qed.

Lemma prepare_loop (q : dns.Question) (names : list string)
    (acc : list dns.Msg) (e : dns.Entropy) :
  for_range names
    (fun messages qName =>
       id <- dns.NextId ;;
       ret (messages ++
              [dns.with_Question
                 (dns.with_RecursionDesired (dns.with_Id dns.zero_Msg id) true)
                 [ {| dns.Name := qName; dns.Qtype := dns.Qtype q;
                      dns.Qclass := dns.Qclass q |} ]]))
    acc e
  = (acc ++ built q names (fst (draws (length names) e)),
     snd (draws (length names) e)).
Proof.
  revert acc e; induction names as [|nm names IH]; intros acc e; simpl.
  - unfold ret, built. simpl. now rewrite app_nil_r.
  - unfold bind at 1. unfold bind at 1.
    destruct (dns.NextId e) as [id e']. unfold ret at 1.
    rewrite IH. destruct (draws (length names) e') as [ids e'']. simpl.
    unfold built. simpl. now rewrite <- app_assoc.
Qed.

Lemma prepareMessages_eq (q : dns.Question) (ndots : Z) (searchList : list string)
    (e : dns.Entropy) :
  resolvers.prepareMessages q ndots searchList e
  = (built q (resolvers.constructPossibleQuestions (dns.Name q) ndots searchList)
       (fst (draws (length (resolvers.constructPossibleQuestions (dns.Name q) ndots searchList)) e)),
     snd (draws (length (resolvers.constructPossibleQuestions (dns.Name q) ndots searchList)) e)).
Proof.
  unfold resolvers.prepareMessages. now rewrite prepare_loop.
Qed.

Lemma built_questions (q : dns.Question) (names : list string) (ids : list N) :
  length ids = length names ->
  map dns.Question_ (built q names ids)
  = map (fun nm => [ {| dns.Name := nm; dns.Qtype := dns.Qtype q;
                        dns.Qclass := dns.Qclass q |} ]) names
  /\ map message_id (built q names ids) = ids
  /\ map question_names (built q names ids) = map (fun nm => [nm]) names
  /\ Forall (fun m => dns.RecursionDesired (dns.Msg_Hdr m) = true) (built q names ids).
Proof.
  revert ids; induction names as [|nm names IH]; intros [|id ids] Hlen;
    simpl in Hlen; try discriminate.
  - repeat split; constructor.
  - destruct (IH ids) as (H1 & H2 & H3 & H4); [lia|].
    unfold built in *. simpl. rewrite H1, H2, H3.
    repeat split. constructor; [reflexivity | exact H4].
Qed.

Lemma NoDup_singletons (names : list string) :
  NoDup (map (fun nm => [nm]) names) <-> NoDup names.
Proof.
  split.
  - apply NoDup_map_inv.
  - induction 1 as [|nm names Hnotin _ IH]; simpl; constructor; [|exact IH].
    intros Hin. apply in_map_iff in Hin. destruct Hin as (nm' & Heq & Hin).
    inversion Heq; subst. contradiction.
Qed.

(** C9, as amended: one message per candidate name, in the order of the
    names; each has recursion desired, exactly one question with the
    candidate name and the type and class of the original question, and
    the id of its own call of the id source (the i-th message has the i-th
    id drawn; the source is advanced by as many draws as there are names).
    The ids are whatever the source delivers, and the question names are
    the candidate names, position by position: they are pairwise distinct
    exactly when the candidate names are. *)
Theorem C9_prepareMessages (q : dns.Question) (ndots : Z) (searchList : list string)
    (e : dns.Entropy) :
  length (fst (resolvers.prepareMessages q ndots searchList e))
    = length (resolvers.constructPossibleQuestions (dns.Name q) ndots searchList)
  /\ map dns.Question_ (fst (resolvers.prepareMessages q ndots searchList e))
    = map (fun nm => [ {| dns.Name := nm; dns.Qtype := dns.Qtype q;
                          dns.Qclass := dns.Qclass q |} ])
          (resolvers.constructPossibleQuestions (dns.Name q) ndots searchList)
  /\ Forall (fun m => dns.RecursionDesired (dns.Msg_Hdr m) = true)
            (fst (resolvers.prepareMessages q ndots searchList e))
  /\ map message_id (fst (resolvers.prepareMessages q ndots searchList e))
    = fst (draws (length (resolvers.constructPossibleQuestions (dns.Name q) ndots searchList)) e)
  /\ snd (resolvers.prepareMessages q ndots searchList e)
    = snd (draws (length (resolvers.constructPossibleQuestions (dns.Name q) ndots searchList)) e)
  /\ (NoDup (map question_names (fst (resolvers.prepareMessages q ndots searchList e)))
      <-> NoDup (resolvers.constructPossibleQuestions (dns.Name q) ndots searchList)).
Proof.
  rewrite prepareMessages_eq. simpl.
  destruct (built_questions q
              (resolvers.constructPossibleQuestions (dns.Name q) ndots searchList)
              (fst (draws (length (resolvers.constructPossibleQuestions
                                     (dns.Name q) ndots searchList)) e)))
    as (H1 & H2 & H3 & H4); [apply draws_length|].
  split; [rewrite <- (length_map dns.Question_), H1; apply length_map|].
  repeat (split; [assumption|]).
  split; [reflexivity|].
  rewrite H3. apply NoDup_singletons.
Qed.

End Builder.

(** C9, as stated, fails: with a search list that names a domain twice and
    a random source that delivers zero bytes, two messages carry the same
    question name and every message has the transaction id zero. *)
Lemma C9_prepareMessages_counterexample :
  ~ NoDup (map question_names
             (fst (resolvers.prepareMessages (D:=dnsref.names) (I:=dnsref.ids)
                     host_question 1 ["corp.local"; "corp.local"] zero_entropy)))
  /\ ~ Forall (fun m => message_id m <> 0%N)
         (fst (resolvers.prepareMessages (D:=dnsref.names) (I:=dnsref.ids)
                 host_question 1 ["corp.local"; "corp.local"] zero_entropy)).
Proof.
  split.
  - vm_compute. intros H. inversion H as [|x l Hnotin _]; subst.
    apply Hnotin. left. reflexivity.
  - vm_compute. intros H. inversion H as [|x l Hx _]; subst.
    apply Hx. reflexivity.
Qed.

(** ** Response Normalizer *)

Section Normalizer.
Context {T : dns.Text}.

Lemma fold_left_authorities (msg : dns.Msg) (timeTaken server : string)
    (records : list dns.RR) (resp : resolvers.Response) :
  fold_left
    (fun resp ns =>
       match resolvers.parseAuthority msg timeTaken server ns with
       | None => resp
       | Some auth =>
           {| resolvers.Answers := resolvers.Answers resp;
              resolvers.Authorities := resolvers.Authorities resp ++ [auth] |}
       end)
    records resp
  = {| resolvers.Answers := resolvers.Answers resp;
       resolvers.Authorities :=
         resolvers.Authorities resp ++
         flat_map (fun ns => match resolvers.parseAuthority msg timeTaken server ns with
                             | Some auth => [auth]
                             | None => []
                             end) records |}.
Proof.
  revert resp; induction records as [|ns records IH]; intros resp; simpl.
  - rewrite app_nil_r. now destruct resp.
  - rewrite IH.
    destruct (resolvers.parseAuthority msg timeTaken server ns); simpl.
    + now rewrite <- app_assoc.
    + reflexivity.
Qed.

Lemma fold_left_answers (timeTaken server : string)
    (records : list dns.RR) (resp : resolvers.Response) :
  fold_left
    (fun resp a =>
       {| resolvers.Answers :=
            resolvers.Answers resp ++ [resolvers.parseAnswer timeTaken server a];
          resolvers.Authorities := resolvers.Authorities resp |})
    records resp
  = {| resolvers.Answers :=
         resolvers.Answers resp ++ map (resolvers.parseAnswer timeTaken server) records;
       resolvers.Authorities := resolvers.Authorities resp |}.
Proof.
  revert resp; induction records as [|a records IH]; intros resp; simpl.
  - rewrite app_nil_r. now destruct resp.
  - rewrite IH. simpl. now rewrite <- app_assoc.
Qed.

Lemma parseMessage_eq (msg : dns.Msg) (rtt : time.Duration) (server : string) :
  resolvers.parseMessage msg rtt server
  = {| resolvers.Answers :=
         map (resolvers.parseAnswer
                (strconv.FormatInt (time.Milliseconds rtt) ++ "ms")%string server)
             (dns.Answer msg);
       resolvers.Authorities :=
         flat_map (fun ns =>
                     match resolvers.parseAuthority msg
                             (strconv.FormatInt (time.Milliseconds rtt) ++ "ms")%string
                             server ns with
                     | Some auth => [auth]
                     | None => []
                     end) (dns.Ns_ msg) |}.
Proof.
  unfold resolvers.parseMessage.
  rewrite fold_left_authorities, fold_left_answers. reflexivity.
Qed.

Lemma authorities_of_SOA (msg : dns.Msg) (timeTaken server : string)
    (records : list dns.RR) :
  Forall2
    (fun ns auth =>
       resolvers.Auth_MName auth = soa_composite ns
       /\ resolvers.Auth_Status auth
          = dns.map_index dns.RcodeToString (dns.Rcode (dns.Msg_Hdr msg))
       /\ resolvers.Auth_Name auth = dns.Hdr_Name (dns.Header ns))
    (filter is_SOA records)
    (flat_map (fun ns => match resolvers.parseAuthority msg timeTaken server ns with
                         | Some auth => [auth]
                         | None => []
                         end) records).
Proof.
  induction records as [|ns records IH]; simpl; [constructor|].
  destruct ns; simpl; try exact IH.
  constructor; [|exact IH].
  simpl. repeat split.
Qed.

(** C4: the authority entries are, in order, one for each SOA record of the
    authority section and none for any other record; the entry of an SOA
    has as mname the name server, the mailbox, the serial, refresh, retry,
    expire and minimum TTL in base 10 joined by single spaces, and as
    status the text the table of result codes has for the response's
    result code. *)
Theorem C4_authorities (msg : dns.Msg) (rtt : time.Duration) (server : string) :
  Forall2
    (fun ns auth =>
       resolvers.Auth_MName auth = soa_composite ns
       /\ resolvers.Auth_Status auth
          = dns.map_index dns.RcodeToString (dns.Rcode (dns.Msg_Hdr msg))
       /\ resolvers.Auth_Name auth = dns.Hdr_Name (dns.Header ns))
    (filter is_SOA (dns.Ns_ msg))
    (resolvers.Authorities (resolvers.parseMessage msg rtt server)).
Proof.
  rewrite parseMessage_eq. simpl. apply authorities_of_SOA.
Qed.

Lemma answerAddress_table (a : dns.RR) :
  resolvers.answerAddress a
  = match rendering_table a with
    | Some text => text
    | None => EmptyString
    end.
Proof. destruct a; reflexivity. Qed.

(** C5: the answers are, in order, one for each record of the answer
    section, whatever the records are; the address of an answer is the
    entry of the rendering table for its record, which is the empty string
    for a record type without a row; its ttl is the record's TTL in decimal
    followed by "s" and its rtt the round-trip time in whole milliseconds
    followed by "ms". *)
Theorem C5_answers (msg : dns.Msg) (rtt : time.Duration) (server : string) :
  Forall2
    (fun a ans =>
       resolvers.Ans_Address ans
         = match rendering_table a with
           | Some text => text
           | None => EmptyString
           end
       /\ resolvers.Ans_TTL ans
          = (strconv.FormatInt (Z.of_N (dns.Ttl (dns.Header a))) ++ "s")%string
       /\ resolvers.Ans_RTT ans
          = (strconv.FormatInt (time.Milliseconds rtt) ++ "ms")%string
       /\ resolvers.Ans_Name ans = dns.Hdr_Name (dns.Header a))
    (dns.Answer msg)
    (resolvers.Answers (resolvers.parseMessage msg rtt server)).
Proof.
  rewrite parseMessage_eq. simpl.
  induction (dns.Answer msg) as [|a records IH]; simpl; constructor; [|exact IH].
  simpl. rewrite answerAddress_table. repeat split.
Qed.

End Normalizer.

(** One A record in the answer section, and an SOA and an NS record in the
    authority section: one answer, and one authority entry, for the SOA. *)
Example parseMessage_A_SOA {T : dns.Text} :
  resolvers.parseMessage
    {| dns.Msg_Hdr := dns.Msg_Hdr dns.zero_Msg; dns.Compress := false;
       dns.Question_ := [];
       dns.Answer := [dns.A {| dns.Hdr_Name := "example.com."; dns.Rrtype := 1;
                               dns.Class := 1; dns.Ttl := 300; dns.Rdlength := 4 |}
                            [93; 184; 216; 34]%N];
       dns.Ns_ := [dns.SOA {| dns.Hdr_Name := "example.com."; dns.Rrtype := 6;
                              dns.Class := 1; dns.Ttl := 3600; dns.Rdlength := 0 |}
                     "ns1.example.com." "admin.example.com."
                     2024010101 7200 3600 1209600 300;
                   dns.NS {| dns.Hdr_Name := "example.com."; dns.Rrtype := 2;
                             dns.Class := 1; dns.Ttl := 3600; dns.Rdlength := 0 |}
                     "ns2.example.com."];
       dns.Extra := [] |}
    12345678 "8.8.8.8:53"
  = {| resolvers.Answers :=
         [ {| resolvers.Ans_Name := "example.com.";
              resolvers.Ans_Type := dns.TypeString 1;
              resolvers.Ans_Class := dns.ClassString 1;
              resolvers.Ans_TTL := "300s";
              resolvers.Ans_Address := dns.IPString [93; 184; 216; 34]%N;
              resolvers.Ans_RTT := "12ms";
              resolvers.Ans_Nameserver := "8.8.8.8:53" |} ];
       resolvers.Authorities :=
         [ {| resolvers.Auth_Name := "example.com.";
              resolvers.Auth_Type := dns.TypeString 6;
              resolvers.Auth_Class := dns.ClassString 1;
              resolvers.Auth_TTL := "3600s";
              resolvers.Auth_MName :=
                "ns1.example.com. admin.example.com. 2024010101 7200 3600 1209600 300";
              resolvers.Auth_Nameserver := "8.8.8.8:53";
              resolvers.Auth_RTT := "12ms";
              resolvers.Auth_Status := dns.map_index dns.RcodeToString 0 |} ] |}.
Proof. reflexivity. Qed.

(** ** Endpoint Classifier *)

Lemma JoinHostPort_not_empty (host port : string) :
  net.JoinHostPort host port <> EmptyString.
Proof.
  unfold net.JoinHostPort. destruct (bytes.index ":" host).
  - discriminate.
  - destruct host; discriminate.
Qed.

Lemma eqb_empty_false (s : string) : s <> EmptyString -> (s =? "")%string = false.
Proof. intros H. now apply String.eqb_neq. Qed.

(** Case analysis on the scheme tests of [initNameserver], last test first;
    [tac] closes each case once the record projections are reduced. *)
Ltac scheme_cases u tac :=
  destruct (url.Scheme u =? "udp")%string;
    [simpl; destruct (url.Port u =? "")%string; simpl; tac|];
  destruct (url.Scheme u =? "tcp")%string;
    [simpl; destruct (url.Port u =? "")%string; simpl; tac|];
  destruct (url.Scheme u =? "tls")%string;
    [simpl; destruct (url.Port u =? "")%string; simpl; tac|].

Section Classifier.
Context {U : url.Lib}.

Lemma initNameserver_error (n : string) :
  snd (doggo.initNameserver n) = None <-> exists u, url.Parse n = inl u.
Proof.
  unfold doggo.initNameserver. destruct (url.Parse n) as [u|err]; simpl; split.
  - intros _. now exists u.
  - reflexivity.
  - discriminate.
  - intros [u Hu]. discriminate.
Qed.

(** C6, as amended: a string that parses without a scheme is a udp endpoint
    at the string joined to port 53; the schemes tls, tcp and udp give the
    protocols dot, tcp and udp at the parsed host joined to the explicit
    port, or to 853, 53 and 53 when there is none; the scheme https gives
    the protocol doh at the text the parsed URL is written back as
    ([u.String()]), with no port added. *)
Theorem C6_classify (n : string) (u : url.URL) :
  url.Parse n = inl u ->
  (url.Scheme u = "" ->
     doggo.initNameserver n =
       ({| doggo.Address := net.JoinHostPort n "53"; doggo.Type_ := "udp" |}, None))
  /\ (url.Scheme u = "tls" ->
     doggo.initNameserver n =
       ({| doggo.Address :=
             net.JoinHostPort (url.Hostname u)
               (if (url.Port u =? "")%string then "853" else url.Port u);
           doggo.Type_ := "dot" |}, None))
  /\ (url.Scheme u = "tcp" ->
     doggo.initNameserver n =
       ({| doggo.Address :=
             net.JoinHostPort (url.Hostname u)
               (if (url.Port u =? "")%string then "53" else url.Port u);
           doggo.Type_ := "tcp" |}, None))
  /\ (url.Scheme u = "udp" ->
     doggo.initNameserver n =
       ({| doggo.Address :=
             net.JoinHostPort (url.Hostname u)
               (if (url.Port u =? "")%string then "53" else url.Port u);
           doggo.Type_ := "udp" |}, None))
  /\ (url.Scheme u = "https" ->
     doggo.initNameserver n =
       ({| doggo.Address := url.String u; doggo.Type_ := "doh" |}, None)).
Proof.
  intros Hparse. unfold doggo.initNameserver. rewrite Hparse.
  repeat split; intros ->; simpl;
    try (destruct (url.Port u =? "")%string); reflexivity.
Qed.

(** The type of an endpoint is one of the four resolver constants. *)
Lemma initNameserver_type (n : string) :
  In (doggo.Type_ (fst (doggo.initNameserver n)))
     [doggo.UDPResolver; doggo.DOHResolver; doggo.DOTResolver; doggo.TCPResolver].
Proof.
  unfold doggo.initNameserver. destruct (url.Parse n) as [u|err]; simpl; [|now left].
  scheme_cases u tauto.
  destruct (url.Scheme u =? "https")%string; simpl; tauto.
Qed.

Hypothesis String_of_https :
  forall u : url.URL, url.Scheme u = "https" -> url.String u <> EmptyString.

Lemma initNameserver_address (n : string) :
  doggo.Address (fst (doggo.initNameserver n)) <> EmptyString.
Proof.
  unfold doggo.initNameserver. destruct (url.Parse n) as [u|err]; simpl;
    [|apply JoinHostPort_not_empty].
  scheme_cases u ltac:(apply JoinHostPort_not_empty).
  destruct (url.Scheme u =? "https")%string eqn:Hs; simpl.
  - apply String_of_https. now apply String.eqb_eq.
  - apply JoinHostPort_not_empty.
Qed.

Lemma initNameserver_kept (n : string) :
  (negb (doggo.Address (fst (doggo.initNameserver n)) =? "")%string
   && negb (doggo.Type_ (fst (doggo.initNameserver n)) =? "")%string)%bool = true.
Proof.
  rewrite (eqb_empty_false _ (initNameserver_address n)).
  destruct (initNameserver_type n) as [<-|[<-|[<-|[<-|[]]]]]; reflexivity.
Qed.

Lemma loadUserNameservers_all (srvs : list string) (hub : doggo.Hub) :
  snd (doggo.loadUserNameservers srvs hub) = None ->
  doggo.Nameservers (fst (doggo.loadUserNameservers srvs hub))
  = doggo.Nameservers hub ++ map (fun srv => fst (doggo.initNameserver srv)) srvs.
Proof.
  revert hub; induction srvs as [|srv srvs IH]; intros hub; simpl.
  - intros _. now rewrite app_nil_r.
  - pose proof (initNameserver_kept srv) as Hkept.
    destruct (doggo.initNameserver srv) as [ns [err|]]; simpl in *; [discriminate|].
    rewrite Hkept. intros Hok. rewrite (IH _ Hok). simpl.
    now rewrite <- app_assoc.
Qed.

End Classifier.

(** C10: every endpoint the classifier returns has a non-empty protocol
    type and a non-empty address, and the loader therefore appends the
    endpoint of every string of a list it runs through without a parse
    error: its test for an empty address or type discards none.  The
    address of a https endpoint is the text of the parsed URL, which
    net/url begins with the scheme: that the text is not empty is the one
    fact about the library the statement rests on. *)
Theorem C10_endpoint_never_empty {U : url.Lib} :
  (forall u : url.URL, url.Scheme u = "https" -> url.String u <> EmptyString) ->
  (forall n : string,
     doggo.Type_ (fst (doggo.initNameserver n)) <> EmptyString
     /\ doggo.Address (fst (doggo.initNameserver n)) <> EmptyString)
  /\ (forall (srvs : list string) (hub : doggo.Hub),
        snd (doggo.loadUserNameservers srvs hub) = None ->
        doggo.Nameservers (fst (doggo.loadUserNameservers srvs hub))
        = doggo.Nameservers hub ++ map (fun srv => fst (doggo.initNameserver srv)) srvs).
Proof.
  intros HString. split.
  - intros n. split.
    + destruct (initNameserver_type n) as [<-|[<-|[<-|[<-|[]]]]]; discriminate.
    + now apply initNameserver_address.
  - intros srvs hub. now apply loadUserNameservers_all.
Qed.

(** ** Nameserver Loader *)

Section Loader.
Context {U : url.Lib} {C : config.Lib}.

(** The loop touches nothing but the endpoint list. *)
Lemma loadUserNameservers_options (srvs : list string) (hub : doggo.Hub) :
  doggo.Flags (fst (doggo.loadUserNameservers srvs hub)) = doggo.Flags hub
  /\ doggo.ResolverOpts (fst (doggo.loadUserNameservers srvs hub))
     = doggo.ResolverOpts hub.
Proof.
  revert hub; induction srvs as [|srv srvs IH]; intros hub; simpl; [now split|].
  destruct (doggo.initNameserver srv) as [ns [err|]]; simpl; [now split|].
  destruct (negb (doggo.Address ns =? "")%string && negb (doggo.Type_ ns =? "")%string)%bool;
    destruct (IH (doggo.with_Nameservers hub (doggo.Nameservers hub ++ [ns]))) as [H1 H2];
    destruct (IH hub) as [H3 H4]; simpl in *; now split.
Qed.

(** The loop stops at the first string that does not parse. *)
Lemma loadUserNameservers_stops {pre : list string} (post : list string) {bad : string}
    (hub : doggo.Hub) :
  Forall (fun srv => exists u, url.Parse srv = inl u) pre ->
  (exists err, url.Parse bad = inr err) ->
  doggo.loadUserNameservers (pre ++ bad :: post) hub
  = (fst (doggo.loadUserNameservers pre hub),
     Some ("error parsing nameserver: " ++ bad)%string).
Proof.
  intros Hpre [err Hbad]. revert hub.
  induction Hpre as [|srv pre [u Hu] _ IH]; intros hub; simpl.
  - unfold doggo.initNameserver. rewrite Hbad, append_empty_r. reflexivity.
  - destruct (doggo.initNameserver srv) as [ns [e|]] eqn:Hinit.
    + assert (Hnone : snd (doggo.initNameserver srv) = None)
        by (apply initNameserver_error; now exists u).
      rewrite Hinit in Hnone. discriminate.
    + apply IH.
Qed.

(** C2, as amended: a nameserver string that fails to parse is reported by
    name and ends the load.  When the strings before it parse, the loader
    returns the error that names the failing string; the hub holds the
    endpoints of the strings before it only; the strings after it are not
    processed and the system defaults are not asked for. *)
Theorem C2_parse_failure_aborts (hub : doggo.Hub) (pre post : list string)
    (bad : string) :
  doggo.QF_Nameservers (doggo.Flags hub) = pre ++ bad :: post ->
  Forall (fun srv => exists u, url.Parse srv = inl u) pre ->
  (exists err, url.Parse bad = inr err) ->
  doggo.loadNameservers hub
  = (fst (doggo.loadUserNameservers pre hub),
     Some ("error parsing nameserver: " ++ bad)%string).
Proof.
  intros Hflags Hpre Hbad. unfold doggo.loadNameservers.
  rewrite Hflags, (loadUserNameservers_stops post hub Hpre Hbad). reflexivity.
Qed.

Lemma getDefaultServers_eq :
  doggo.getDefaultServers
  = match system_failure with
    | Some err => ([], 0, [], Some err)
    | None => (map default_endpoint system_servers, system_ndots, system_search, None)
    end.
Proof.
  unfold doggo.getDefaultServers, system_failure, system_servers, system_ndots,
    system_search.
  destruct config.GetDefaultServers as [[[servers ndots] search] [err|]]; simpl.
  - reflexivity.
  - now rewrite (fold_left_snoc default_endpoint).
Qed.

(** C7: the load never changes the flags of the user.  When the loop over
    the user's strings ends without an error and without an endpoint and
    the system defaults are read, the resolver's ndots becomes the system's
    exactly when the user's ndots is 0, and the resolver's search list
    becomes the system's exactly when that list is not empty and the user
    asked for the search list; in each opposite case the value stays.  In
    every other run of the loader both resolver options stay as they were. *)
Theorem C7_reconciliation (hub : doggo.Hub) :
  doggo.Flags (fst (doggo.loadNameservers hub)) = doggo.Flags hub
  /\ (falls_back hub -> system_failure = None ->
        (doggo.QF_Ndots (doggo.Flags hub) = 0 ->
           resolvers.Ndots (doggo.ResolverOpts (fst (doggo.loadNameservers hub)))
           = system_ndots)
        /\ (doggo.QF_Ndots (doggo.Flags hub) <> 0 ->
           resolvers.Ndots (doggo.ResolverOpts (fst (doggo.loadNameservers hub)))
           = resolvers.Ndots (doggo.ResolverOpts hub))
        /\ (system_search <> [] /\ doggo.QF_UseSearchList (doggo.Flags hub) = true ->
           resolvers.SearchList (doggo.ResolverOpts (fst (doggo.loadNameservers hub)))
           = system_search)
        /\ (system_search = [] \/ doggo.QF_UseSearchList (doggo.Flags hub) = false ->
           resolvers.SearchList (doggo.ResolverOpts (fst (doggo.loadNameservers hub)))
           = resolvers.SearchList (doggo.ResolverOpts hub)))
  /\ (~ (falls_back hub /\ system_failure = None) ->
        doggo.ResolverOpts (fst (doggo.loadNameservers hub)) = doggo.ResolverOpts hub).
Proof.
  unfold falls_back, doggo.loadNameservers. rewrite getDefaultServers_eq.
  destruct (loadUserNameservers_options (doggo.QF_Nameservers (doggo.Flags hub)) hub)
    as [Hflags Hopts].
  destruct (doggo.loadUserNameservers (doggo.QF_Nameservers (doggo.Flags hub)) hub)
    as [hub1 [err|]]; simpl in *.
  - split; [exact Hflags|]. split; [intros [Habs _]; discriminate|].
    intros _. exact Hopts.
  - destruct (doggo.Nameservers hub1) as [|ns1 rest] eqn:Hns; simpl.
    + destruct system_failure as [err|]; simpl.
      * split; [exact Hflags|]. split; [discriminate|]. intros _. exact Hopts.
      * rewrite Hflags.
        destruct (Z.eqb_spec (doggo.QF_Ndots (doggo.Flags hub)) 0) as [Hnd|Hnd];
          simpl; rewrite ?Hflags;
          destruct system_search as [|dom search];
          destruct (doggo.QF_UseSearchList (doggo.Flags hub));
          simpl; rewrite ?Hflags, ?Hopts;
          (split; [reflexivity|]); (split; [|intros Hnot; elim Hnot; now split]);
          intros _ _;
          repeat split; intros; try reflexivity; try contradiction;
          repeat match goal with
                 | H : _ /\ _ |- _ => destruct H
                 | H : _ \/ _ |- _ => destruct H
                 end; try discriminate; try congruence.
    + split; [exact Hflags|]. split; [intros [_ Habs]; discriminate|].
      intros _. exact Hopts.
Qed.

End Loader.

(** ** The program on concrete inputs *)

Lemma urlref_String_of_https (u : urlref.URL) :
  urlref.Scheme u = "https" -> urlref.String_ u <> EmptyString.
Proof.
  intros Hs. unfold urlref.String_. rewrite Hs. simpl.
  destruct (bytes.is_empty (urlref.Opaque u)); simpl; [|discriminate].
  destruct (urlref.OmitHost u && bytes.is_empty (urlref.Host u))%bool; simpl.
  - destruct (negb (bytes.is_empty (urlref.Path u)) && negb (String.prefix "/" (urlref.Path u))
              && negb (bytes.is_empty (urlref.Host u)))%bool; simpl; discriminate.
  - destruct (negb (bytes.is_empty (urlref.Host u)) || negb (bytes.is_empty (urlref.Path u)))%bool;
      simpl;
      destruct (negb (bytes.is_empty (urlref.Path u)) && negb (String.prefix "/" (urlref.Path u))
                && negb (bytes.is_empty (urlref.Host u)))%bool; simpl; discriminate.
Qed.

Example classify_bare_address :
  doggo.initNameserver (U:=urlref.lib) "8.8.8.8"
  = ({| doggo.Address := "8.8.8.8:53"; doggo.Type_ := "udp" |}, None).
Proof. reflexivity. Qed.

Example classify_tls :
  doggo.initNameserver (U:=urlref.lib) "tls://1.1.1.1"
  = ({| doggo.Address := "1.1.1.1:853"; doggo.Type_ := "dot" |}, None).
Proof. reflexivity. Qed.

Example classify_tcp_port :
  doggo.initNameserver (U:=urlref.lib) "tcp://9.9.9.9:5353"
  = ({| doggo.Address := "9.9.9.9:5353"; doggo.Type_ := "tcp" |}, None).
Proof. reflexivity. Qed.

Example classify_https :
  doggo.initNameserver (U:=urlref.lib) "https://dns.google/dns-query"
  = ({| doggo.Address := "https://dns.google/dns-query"; doggo.Type_ := "doh" |}, None).
Proof. reflexivity. Qed.

Example classify_address_with_port :
  snd (doggo.initNameserver (U:=urlref.lib) "1.1.1.1:53")
  = Some "first path segment in URL cannot contain colon".
Proof. reflexivity. Qed.

(** An empty user list and a system configuration that cannot be read: an
    error, and no endpoint. *)
Example load_without_system_defaults :
  doggo.loadNameservers (U:=urlref.lib) (C:=system_error) (fresh_hub [] 0 false)
  = (fresh_hub [] 0 false, Some "error fetching system default nameserver").
Proof. reflexivity. Qed.

Lemma C6_classify_witness :
  url.Parse (Lib:=urlref.lib) "tls://1.1.1.1"
    = inl {| urlref.Scheme := "tls"; urlref.Opaque := ""; urlref.Host := "1.1.1.1";
             urlref.Path := ""; urlref.OmitHost := false |}
  /\ doggo.initNameserver (U:=urlref.lib) "tls://1.1.1.1"
     = ({| doggo.Address := "1.1.1.1:853"; doggo.Type_ := "dot" |}, None).
Proof.
  split.
  - reflexivity.
  - exact (proj1 (proj2
             (C6_classify (U:=urlref.lib) "tls://1.1.1.1"
                {| urlref.Scheme := "tls"; urlref.Opaque := ""; urlref.Host := "1.1.1.1";
                   urlref.Path := ""; urlref.OmitHost := false |} eq_refl)) eq_refl).
Defined.

(** C6, as stated, fails: a https URL whose scheme is written in capitals
    parses with the scheme https and is a doh endpoint, and its address is
    the URL as written back by the parser, in lower case, not the string
    that was given. *)
Lemma C6_classify_counterexample :
  exists u : url.URL (Lib:=urlref.lib),
    url.Parse "HTTPS://dns.google/dns-query" = inl u
    /\ url.Scheme u = "https"
    /\ doggo.Type_ (fst (doggo.initNameserver (U:=urlref.lib) "HTTPS://dns.google/dns-query"))
       = "doh"
    /\ doggo.Address (fst (doggo.initNameserver (U:=urlref.lib) "HTTPS://dns.google/dns-query"))
       <> "HTTPS://dns.google/dns-query".
Proof.
  eexists. split; [reflexivity|]. split; [reflexivity|]. split; [reflexivity|].
  vm_compute. discriminate.
Qed.

Lemma C10_endpoint_never_empty_witness :
  (forall u : url.URL (Lib:=urlref.lib), url.Scheme u = "https" -> url.String u <> EmptyString)
  /\ doggo.Type_ (fst (doggo.initNameserver (U:=urlref.lib) "https://dns.google/dns-query"))
     <> EmptyString
  /\ doggo.Address (fst (doggo.initNameserver (U:=urlref.lib) "https://dns.google/dns-query"))
     <> EmptyString.
Proof.
  split.
  - exact urlref_String_of_https.
  - exact (proj1 (C10_endpoint_never_empty (U:=urlref.lib) urlref_String_of_https)
             "https://dns.google/dns-query").
Defined.

Lemma C2_parse_failure_aborts_witness :
  doggo.QF_Nameservers
    (doggo.Flags (fresh_hub ["8.8.8.8"; "1.1.1.1:53"; "9.9.9.9"] 0 false))
    = ["8.8.8.8"] ++ "1.1.1.1:53" :: ["9.9.9.9"]
  /\ Forall (fun srv => exists u, url.Parse (Lib:=urlref.lib) srv = inl u) ["8.8.8.8"]
  /\ (exists err, url.Parse (Lib:=urlref.lib) "1.1.1.1:53" = inr err)
  /\ doggo.loadNameservers (U:=urlref.lib) (C:=system_one)
       (fresh_hub ["8.8.8.8"; "1.1.1.1:53"; "9.9.9.9"] 0 false)
     = (doggo.with_Nameservers
          (fresh_hub ["8.8.8.8"; "1.1.1.1:53"; "9.9.9.9"] 0 false)
          [ {| doggo.Address := "8.8.8.8:53"; doggo.Type_ := "udp" |} ],
        Some "error parsing nameserver: 1.1.1.1:53").
Proof.
  assert (Hpre : Forall (fun srv => exists u, url.Parse (Lib:=urlref.lib) srv = inl u)
                   ["8.8.8.8"]).
  { constructor; [|constructor]. eexists. reflexivity. }
  assert (Hbad : exists err, url.Parse (Lib:=urlref.lib) "1.1.1.1:53" = inr err).
  { eexists. reflexivity. }
  split; [reflexivity|]. split; [exact Hpre|]. split; [exact Hbad|].
  exact (C2_parse_failure_aborts (U:=urlref.lib) (C:=system_one)
           (fresh_hub ["8.8.8.8"; "1.1.1.1:53"; "9.9.9.9"] 0 false)
           ["8.8.8.8"] ["9.9.9.9"] "1.1.1.1:53" eq_refl Hpre Hbad).
Defined.

(** C2, as stated, fails: the second string of the list is well formed and
    is an endpoint on its own, but the load of the list ends at the first
    string with the error that names it, and the hub has no endpoint. *)
Lemma C2_parse_failure_counterexample :
  doggo.initNameserver (U:=urlref.lib) "8.8.8.8"
    = ({| doggo.Address := "8.8.8.8:53"; doggo.Type_ := "udp" |}, None)
  /\ snd (doggo.loadNameservers (U:=urlref.lib) (C:=system_one)
            (fresh_hub ["1.1.1.1:53"; "8.8.8.8"] 0 false))
     = Some "error parsing nameserver: 1.1.1.1:53"
  /\ doggo.Nameservers
       (fst (doggo.loadNameservers (U:=urlref.lib) (C:=system_one)
               (fresh_hub ["1.1.1.1:53"; "8.8.8.8"] 0 false)))
     = [].
Proof. repeat split. Qed.

(** C3: the code breaks the claim at this input.  With no string from the
    user and a system configuration that is read without error but lists
    no name server, the loop leaves no endpoint, the fallback is taken, and
    the loader returns no error although the endpoint list is empty. *)
Theorem C3_empty_list_without_error :
  falls_back (U:=urlref.lib) (fresh_hub [] 0 false)
  /\ snd (doggo.loadNameservers (U:=urlref.lib) (C:=system_none) (fresh_hub [] 0 false)) = None
  /\ doggo.Nameservers
       (fst (doggo.loadNameservers (U:=urlref.lib) (C:=system_none) (fresh_hub [] 0 false)))
     = [].
Proof. repeat split. Qed.

Lemma C7_reconciliation_witness :
  falls_back (U:=urlref.lib) (fresh_hub [] 0 true)
  /\ system_failure (C:=system_one) = None
  /\ resolvers.Ndots
       (doggo.ResolverOpts
          (fst (doggo.loadNameservers (U:=urlref.lib) (C:=system_one) (fresh_hub [] 0 true))))
     = 1
  /\ resolvers.SearchList
       (doggo.ResolverOpts
          (fst (doggo.loadNameservers (U:=urlref.lib) (C:=system_one) (fresh_hub [] 0 true))))
     = ["lan"].
Proof.
  assert (Hfb : falls_back (U:=urlref.lib) (fresh_hub [] 0 true)) by (split; reflexivity).
  split; [exact Hfb|]. split; [reflexivity|].
  destruct (C7_reconciliation (U:=urlref.lib) (C:=system_one) (fresh_hub [] 0 true))
    as (_ & Hfallback & _).
  destruct (Hfallback Hfb eq_refl) as (Hndots & _ & Hsearch & _).
  split.
  - exact (Hndots eq_refl).
  - apply Hsearch. split; [discriminate | reflexivity].
Defined.

(** With a nameserver from the user the options stay, whatever the system
    has. *)
Example load_user_nameserver :
  doggo.loadNameservers (U:=urlref.lib) (C:=system_one) (fresh_hub ["tls://1.1.1.1"] 0 true)
  = (doggo.with_Nameservers (fresh_hub ["tls://1.1.1.1"] 0 true)
       [ {| doggo.Address := "1.1.1.1:853"; doggo.Type_ := "dot" |} ],
     None).
Proof. reflexivity. Qed.


(** * Further properties of the code *)

(** ** constructPossibleQuestions *)

Section ExpanderMore.
Context {D : dns.Names}.

(** X1: a fully qualified name has one candidate and any other name has
    one candidate more than the search list has entries, whatever ndots
    is; there is always at least one candidate. *)
Theorem X1_expand_count (name : string) (ndots : Z) (searchList : list string) :
  length (resolvers.constructPossibleQuestions name ndots searchList)
    = (if dns.IsFqdn name then 1 else S (length searchList))%nat
  /\ resolvers.constructPossibleQuestions name ndots searchList <> [].
Proof.
  unfold resolvers.constructPossibleQuestions.
  destruct (dns.IsFqdn name); [split; [reflexivity | discriminate]|].
  destruct (dns.CountLabel name >? ndots); simpl; rewrite fold_left_snoc; simpl.
  - rewrite length_map. split; [reflexivity | discriminate].
  - rewrite length_app, length_map. simpl. split; [lia|].
    apply app_singleton_not_nil.
Qed.

(** X2: ndots decides the order of the candidates only: for two values of
    ndots the candidate lists of a name are permutations of each other. *)
Theorem X2_expand_ndots_permutation (name : string) (ndots ndots' : Z)
    (searchList : list string) :
  Permutation (resolvers.constructPossibleQuestions name ndots searchList)
              (resolvers.constructPossibleQuestions name ndots' searchList).
Proof.
  unfold resolvers.constructPossibleQuestions.
  destruct (dns.IsFqdn name); [apply Permutation_refl|].
  destruct (dns.CountLabel name >? ndots), (dns.CountLabel name >? ndots');
    simpl; rewrite !fold_left_snoc; simpl.
  - apply Permutation_refl.
  - apply Permutation_cons_append.
  - apply Permutation_sym, Permutation_cons_append.
  - apply Permutation_refl.
Qed.

(** X3: the candidates are the name as it stands (made fully qualified
    when it is not) and, for a name that is not fully qualified, the
    suffixed names of the search list; nothing else, for every ndots. *)
Theorem X3_expand_members (name : string) (ndots : Z) (searchList : list string)
    (c : string) :
  In c (resolvers.constructPossibleQuestions name ndots searchList)
  <-> c = bare_name name
      \/ (dns.IsFqdn name = false
          /\ exists s, In s searchList /\ c = dns.Fqdn (dns.Fqdn name ++ s)%string).
Proof.
  unfold resolvers.constructPossibleQuestions, bare_name.
  destruct (dns.IsFqdn name).
  - simpl. split.
    + intros [<-|[]]. now left.
    + intros [->|[Habs _]]; [now left | discriminate].
  - assert (Hmap : forall c, In c (map (fun s => dns.Fqdn (dns.Fqdn name ++ s)%string) searchList)
                   <-> exists s, In s searchList /\ c = dns.Fqdn (dns.Fqdn name ++ s)%string).
    { intros c0. rewrite in_map_iff. split; intros (s & H1 & H2); exists s; now split. }
    destruct (dns.CountLabel name >? ndots); simpl; rewrite fold_left_snoc; simpl.
    + rewrite Hmap. split.
      * intros [<-|H]; [now left | right; now split].
      * intros [->|[_ H]]; [now left | now right].
    + rewrite in_app_iff, Hmap. simpl. split.
      * intros [H|[<-|[]]]; [right; now split | now left].
      * intros [->|[_ H]]; [right; now left | now left].
Qed.

End ExpanderMore.

(** ** prepareMessages *)

Section BuilderMore.
Context {D : dns.Names} {I : dns.IdSource}.

Lemma draws_app (n m : nat) (e : dns.Entropy) :
  draws (n + m) e
  = (fst (draws n e) ++ fst (draws m (snd (draws n e))),
     snd (draws m (snd (draws n e)))).
Proof.
  revert e; induction n as [|n IH]; intros e; simpl.
  - now destruct (draws m e).
  - destruct (dns.NextId e) as [id e']. rewrite IH.
    destruct (draws n e') as [ids e'']. simpl. reflexivity.
Qed.

Lemma prepared_ids (q : dns.Question) (ndots : Z) (searchList : list string)
    (e : dns.Entropy) :
  map message_id (fst (resolvers.prepareMessages q ndots searchList e))
  = fst (draws (length (fst (resolvers.prepareMessages q ndots searchList e))) e)
  /\ snd (resolvers.prepareMessages q ndots searchList e)
  = snd (draws (length (fst (resolvers.prepareMessages q ndots searchList e))) e).
Proof.
  rewrite prepareMessages_eq. simpl.
  destruct (built_questions q
              (resolvers.constructPossibleQuestions (dns.Name q) ndots searchList)
              (fst (draws (length (resolvers.constructPossibleQuestions
                                     (dns.Name q) ndots searchList)) e)))
    as (H1 & H2 & _ & _); [apply draws_length|].
  assert (Hlen : length (built q (resolvers.constructPossibleQuestions
                                    (dns.Name q) ndots searchList)
                           (fst (draws (length (resolvers.constructPossibleQuestions
                                                  (dns.Name q) ndots searchList)) e)))
                 = length (resolvers.constructPossibleQuestions (dns.Name q) ndots searchList)).
  { rewrite <- (length_map dns.Question_), H1. apply length_map. }
  rewrite Hlen. split; [exact H2 | reflexivity].
Qed.

(** X4: a question whose name is fully qualified gives exactly one
    message, with the name as it is and the next id of the source, and one
    id is consumed; ndots and the search list play no part. *)
Theorem X4_prepare_qualified (q : dns.Question) (ndots : Z)
    (searchList : list string) (e : dns.Entropy) :
  dns.IsFqdn (dns.Name q) = true ->
  resolvers.prepareMessages q ndots searchList e
  = ([query_message q (dns.Name q) (fst (dns.NextId e))], snd (dns.NextId e)).
Proof.
  intros Hq. unfold resolvers.prepareMessages, resolvers.constructPossibleQuestions.
  rewrite Hq. simpl. unfold bind, ret. now destruct (dns.NextId e).
Qed.

(** X5: there is always at least one message, and every message is a bare
    query: apart from its id and its question it is the zero message with
    recursion desired set, so it is not a response, has opcode and result
    code 0 and carries no answer, authority or additional record. *)
Theorem X5_prepare_bare_queries (q : dns.Question) (ndots : Z)
    (searchList : list string) (e : dns.Entropy) :
  fst (resolvers.prepareMessages q ndots searchList e) <> []
  /\ Forall (fun m => dns.with_Question (dns.with_Id m 0%N) []
                      = dns.with_RecursionDesired dns.zero_Msg true
                      /\ length (dns.Question_ m) = 1%nat)
            (fst (resolvers.prepareMessages q ndots searchList e)).
Proof.
  rewrite prepareMessages_eq. simpl. split.
  - pose proof (draws_length
                  (length (resolvers.constructPossibleQuestions
                             (dns.Name q) ndots searchList)) e) as Hlen.
    destruct (resolvers.constructPossibleQuestions (dns.Name q) ndots searchList)
      as [|nm names] eqn:Hnames.
    + exfalso. revert Hnames. unfold resolvers.constructPossibleQuestions.
      destruct (dns.IsFqdn (dns.Name q)); [discriminate|].
      destruct (dns.CountLabel (dns.Name q) >? ndots); simpl;
        rewrite fold_left_snoc; simpl; [discriminate | apply app_singleton_not_nil].
    + destruct (fst (draws (length (nm :: names)) e)); simpl in *; discriminate.
  - unfold built. apply Forall_forall. intros m Hm.
    apply in_map_iff in Hm. destruct Hm as (p & <- & _). split; reflexivity.
Qed.

(** X6: the ids of two batches built one after the other, the second from
    the entropy the first leaves, are the draws of the source in sequence:
    the second batch continues where the first stopped. *)
Theorem X6_prepare_batches (q q' : dns.Question) (ndots ndots' : Z)
    (searchList searchList' : list string) (e : dns.Entropy) :
  map message_id
    (fst (resolvers.prepareMessages q ndots searchList e)
     ++ fst (resolvers.prepareMessages q' ndots' searchList'
               (snd (resolvers.prepareMessages q ndots searchList e))))
  = fst (draws
           (length (fst (resolvers.prepareMessages q ndots searchList e))
            + length (fst (resolvers.prepareMessages q' ndots' searchList'
                             (snd (resolvers.prepareMessages q ndots searchList e)))))
           e).
Proof.
  destruct (prepared_ids q ndots searchList e) as [Hids He].
  destruct (prepared_ids q' ndots' searchList'
              (snd (resolvers.prepareMessages q ndots searchList e))) as [Hids' _].
  rewrite map_app, draws_app. simpl.
  rewrite Hids at 1. f_equal.
  rewrite Hids' at 1. now rewrite He at 2.
Qed.

End BuilderMore.

Lemma X4_prepare_qualified_witness :
  dns.IsFqdn (Names:=dnsref.names) "example.com." = true
  /\ fst (resolvers.prepareMessages (D:=dnsref.names) (I:=dnsref.ids)
            {| dns.Name := "example.com."; dns.Qtype := 28; dns.Qclass := 1 |}
            2 ["corp.local"] (fun i => N.of_nat i + 18)%N)
     = [query_message {| dns.Name := "example.com."; dns.Qtype := 28; dns.Qclass := 1 |}
          "example.com." 4627].
Proof.
  split.
  - reflexivity.
  - exact (f_equal fst
             (X4_prepare_qualified (D:=dnsref.names) (I:=dnsref.ids)
                {| dns.Name := "example.com."; dns.Qtype := 28; dns.Qclass := 1 |}
                2 ["corp.local"] (fun i => N.of_nat i + 18)%N eq_refl)).
Defined.

(** ** parseMessage *)

Lemma fields_not_nil (s : string) : fields s <> [].
Proof.
  induction s as [|c s IH]; simpl; [discriminate|].
  destruct (Ascii.eqb c " "); [discriminate|].
  destruct (fields s); [now elim IH | discriminate].
Qed.

(** Splitting distributes over a join with a space. *)
Lemma fields_join (a b : string) :
  fields (a ++ String " " b)%string = fields a ++ fields b.
Proof.
  induction a as [|c a IH]; simpl; [reflexivity|].
  destruct (Ascii.eqb c " "); simpl; [now rewrite <- IH|].
  rewrite IH. pose proof (fields_not_nil a) as Ha.
  destruct (fields a) as [|f fs]; [now elim Ha | reflexivity].
Qed.

Lemma fields_digits (d : Decimal.uint) :
  fields (NilEmpty.string_of_uint d) = [NilEmpty.string_of_uint d]
  \/ d = Decimal.Nil.
Proof.
  induction d as [|d IH|d IH|d IH|d IH|d IH|d IH|d IH|d IH|d IH|d IH];
    [now right| | | | | | | | | |];
    left; simpl; (destruct IH as [-> | ->]; reflexivity).
Qed.

(** A number in base 10 is one field. *)
Lemma fields_decimal (n : N) :
  fields (strconv.FormatInt (Z.of_N n)) = [strconv.FormatInt (Z.of_N n)].
Proof.
  unfold strconv.FormatInt. destruct n as [|p]; [reflexivity|].
  simpl. unfold NilZero.string_of_uint.
  pose proof (Unsigned.to_uint_nonnil p) as Hp.
  destruct (fields_digits (Pos.to_uint p)) as [H|H]; [|now elim Hp].
  destruct (Pos.to_uint p); [now elim Hp | exact H ..].
Qed.

Lemma to_int_not_nil (z : Z) :
  Z.to_int z <> Decimal.Pos Decimal.Nil /\ Z.to_int z <> Decimal.Neg Decimal.Nil.
Proof.
  destruct z as [|p|p]; simpl; split; try discriminate;
    intros H; injection H as H; now apply (Unsigned.to_uint_nonnil p).
Qed.

(** Base 10 loses nothing: different numbers have different texts. *)
Lemma FormatInt_inj (x y : Z) : strconv.FormatInt x = strconv.FormatInt y -> x = y.
Proof.
  unfold strconv.FormatInt. intros H.
  apply (f_equal NilZero.int_of_string) in H.
  destruct (to_int_not_nil x) as [Hx1 Hx2], (to_int_not_nil y) as [Hy1 Hy2].
  rewrite !NilZero.isi in H by assumption.
  injection H as H. now apply DecimalZ.to_int_inj.
Qed.

Lemma list_ascii_append (a b : string) :
  list_ascii_of_string (a ++ b)%string
  = list_ascii_of_string a ++ list_ascii_of_string b.
Proof. induction a as [|c a IH]; simpl; [reflexivity | now rewrite IH]. Qed.

Lemma append_inv_tail (a b s : string) : (a ++ s = b ++ s)%string -> a = b.
Proof.
  intros H. apply (f_equal list_ascii_of_string) in H.
  rewrite !list_ascii_append in H. apply app_inv_tail in H.
  rewrite <- (string_of_list_ascii_of_string a), <- (string_of_list_ascii_of_string b).
  now rewrite H.
Qed.

Section NormalizerMore.
Context {T : dns.Text}.

(** X7: the response depends on the message through its result code and
    its answer and authority sections only: the id, the flags, the opcode,
    the questions and the additional section are never read. *)
Theorem X7_parse_reads (msg : dns.Msg) (rtt : time.Duration) (server : string) :
  resolvers.parseMessage msg rtt server
  = resolvers.parseMessage (read_part msg) rtt server.
Proof.
  rewrite !parseMessage_eq. reflexivity.
Qed.

(** X8: every entry carries the server it was given and the same rtt text,
    and the type and class texts of the header of its record; an authority
    entry also carries the TTL of its SOA in decimal followed by "s". *)
Theorem X8_parse_common_fields (msg : dns.Msg) (rtt : time.Duration) (server : string) :
  Forall2
    (fun a ans =>
       resolvers.Ans_Type ans = dns.TypeString (dns.Rrtype (dns.Header a))
       /\ resolvers.Ans_Class ans = dns.ClassString (dns.Class (dns.Header a))
       /\ resolvers.Ans_Nameserver ans = server)
    (dns.Answer msg)
    (resolvers.Answers (resolvers.parseMessage msg rtt server))
  /\ Forall2
    (fun ns auth =>
       resolvers.Auth_Type auth = dns.TypeString (dns.Rrtype (dns.Header ns))
       /\ resolvers.Auth_Class auth = dns.ClassString (dns.Class (dns.Header ns))
       /\ resolvers.Auth_TTL auth
          = (strconv.FormatInt (Z.of_N (dns.Ttl (dns.Header ns))) ++ "s")%string
       /\ resolvers.Auth_Nameserver auth = server
       /\ resolvers.Auth_RTT auth
          = (strconv.FormatInt (time.Milliseconds rtt) ++ "ms")%string)
    (filter is_SOA (dns.Ns_ msg))
    (resolvers.Authorities (resolvers.parseMessage msg rtt server)).
Proof.
  rewrite parseMessage_eq. simpl. split.
  - induction (dns.Answer msg) as [|a records IH]; simpl; constructor; [|exact IH].
    repeat split.
  - induction (dns.Ns_ msg) as [|ns records IH]; simpl; [constructor|].
    destruct ns; simpl; try exact IH.
    constructor; [|exact IH]. repeat split.
Qed.

(** X9: records are converted one by one: the response of a message whose
    sections are concatenations is the concatenation, section by section,
    of the responses of the parts. *)
Theorem X9_parse_concat (msg : dns.Msg) (rtt : time.Duration) (server : string)
    (a1 a2 n1 n2 : list dns.RR) :
  resolvers.parseMessage (with_sections msg (a1 ++ a2) (n1 ++ n2)) rtt server
  = {| resolvers.Answers :=
         resolvers.Answers (resolvers.parseMessage (with_sections msg a1 n1) rtt server)
         ++ resolvers.Answers (resolvers.parseMessage (with_sections msg a2 n2) rtt server);
       resolvers.Authorities :=
         resolvers.Authorities (resolvers.parseMessage (with_sections msg a1 n1) rtt server)
         ++ resolvers.Authorities (resolvers.parseMessage (with_sections msg a2 n2) rtt server) |}.
Proof.
  rewrite !parseMessage_eq. simpl. now rewrite map_app, flat_map_app.
Qed.

(** X10: the composite mname can be taken apart again: split at its
    spaces it is the fields of the name server, the fields of the mailbox
    and then the five numbers, each as one field.  When the name server
    and the mailbox have no space these are seven fields. *)
Theorem X10_mname_fields (msg : dns.Msg) (rtt : time.Duration) (server : string) :
  Forall2
    (fun ns auth =>
       match ns with
       | dns.SOA _ nsname mbox serial refresh retry expire minttl =>
           fields (resolvers.Auth_MName auth)
           = fields nsname ++ fields mbox
             ++ [strconv.FormatInt (Z.of_N serial); strconv.FormatInt (Z.of_N refresh);
                 strconv.FormatInt (Z.of_N retry); strconv.FormatInt (Z.of_N expire);
                 strconv.FormatInt (Z.of_N minttl)]
       | _ => False
       end)
    (filter is_SOA (dns.Ns_ msg))
    (resolvers.Authorities (resolvers.parseMessage msg rtt server)).
Proof.
  rewrite parseMessage_eq. simpl.
  induction (dns.Ns_ msg) as [|ns records IH]; simpl; [constructor|].
  destruct ns; simpl; try exact IH.
  constructor; [|exact IH]. simpl.
  rewrite !fields_join, !fields_decimal. reflexivity.
Qed.

Lemma zero_ms (x : Z) : (strconv.FormatInt x ++ "ms")%string = "0ms" <-> x = 0.
Proof.
  split; [|now intros ->].
  intros H. apply FormatInt_inj. apply (append_inv_tail _ _ "ms"). exact H.
Qed.

(** X11: the rtt text counts whole milliseconds and drops the rest: it is
    "0ms" exactly for the durations strictly between minus one and one
    millisecond. *)
Theorem X11_parse_rtt_zero (msg : dns.Msg) (rtt : time.Duration) (server : string) :
  Forall (fun ans => resolvers.Ans_RTT ans = "0ms" <-> -1000000 < rtt < 1000000)
         (resolvers.Answers (resolvers.parseMessage msg rtt server))
  /\ Forall (fun auth => resolvers.Auth_RTT auth = "0ms" <-> -1000000 < rtt < 1000000)
         (resolvers.Authorities (resolvers.parseMessage msg rtt server)).
Proof.
  assert (Hms : forall s, s = (strconv.FormatInt (time.Milliseconds rtt) ++ "ms")%string ->
                (s = "0ms" <-> -1000000 < rtt < 1000000)).
  { intros s ->. rewrite zero_ms. unfold time.Milliseconds.
    rewrite Z.quot_small_iff by discriminate. lia. }
  rewrite parseMessage_eq. simpl. split.
  - apply Forall_forall. intros ans Hin. apply in_map_iff in Hin.
    destruct Hin as (a & <- & _). apply Hms. reflexivity.
  - apply Forall_forall. intros auth Hin. apply in_flat_map in Hin.
    destruct Hin as (ns & _ & Hin). destruct ns; simpl in Hin; try contradiction.
    destruct Hin as [<-|[]]. apply Hms. reflexivity.
Qed.

End NormalizerMore.

(** ** initNameserver and getDefaultServers *)

Section ClassifierMore.
Context {U : url.Lib}.

(** X12: when the string does not parse, or parses with a scheme other
    than https, tls, tcp and udp (none at all, or one the function has no
    branch for), the endpoint is the fallback the function starts with: udp
    at the whole string joined to port 53. *)
Theorem X12_classify_fallback (n : string) :
  match url.Parse n with
  | inl u => ~ In (url.Scheme u) known_schemes
  | inr _ => True
  end ->
  fst (doggo.initNameserver n)
  = {| doggo.Address := net.JoinHostPort n "53"; doggo.Type_ := "udp" |}.
Proof.
  unfold doggo.initNameserver, known_schemes.
  destruct (url.Parse n) as [u|err]; [|reflexivity].
  intros Hnot. simpl in Hnot.
  destruct (String.eqb_spec (url.Scheme u) "https") as [E|_]; [rewrite E in Hnot; tauto|].
  destruct (String.eqb_spec (url.Scheme u) "tls") as [E|_]; [rewrite E in Hnot; tauto|].
  destruct (String.eqb_spec (url.Scheme u) "tcp") as [E|_]; [rewrite E in Hnot; tauto|].
  destruct (String.eqb_spec (url.Scheme u) "udp") as [E|_]; [rewrite E in Hnot; tauto|].
  reflexivity.
Qed.

(** X13: an endpoint is either a doh endpoint, which comes from a URL with
    the scheme https only and has the text of that URL as its address, or
    a udp, tcp or dot endpoint whose address is a host joined to a port
    that is not empty. *)
Theorem X13_classify_shape (n : string) :
  (doggo.Type_ (fst (doggo.initNameserver n)) = "doh"
   /\ exists u, url.Parse n = inl u /\ url.Scheme u = "https"
                /\ doggo.Address (fst (doggo.initNameserver n)) = url.String u)
  \/ (In (doggo.Type_ (fst (doggo.initNameserver n))) ["udp"; "tcp"; "dot"]
      /\ exists host port, port <> EmptyString
           /\ doggo.Address (fst (doggo.initNameserver n)) = net.JoinHostPort host port).
Proof.
  unfold doggo.initNameserver.
  destruct (url.Parse n) as [u|err]; simpl.
  - destruct (String.eqb_spec (url.Scheme u) "udp") as [Eudp|_].
    { right. simpl. destruct (String.eqb_spec (url.Port u) "") as [_|Hp]; simpl.
      - split; [tauto|]. exists (url.Hostname u), "53". now split.
      - split; [tauto|]. exists (url.Hostname u), (url.Port u). now split. }
    destruct (String.eqb_spec (url.Scheme u) "tcp") as [Etcp|_].
    { right. simpl. destruct (String.eqb_spec (url.Port u) "") as [_|Hp]; simpl.
      - split; [tauto|]. exists (url.Hostname u), "53". now split.
      - split; [tauto|]. exists (url.Hostname u), (url.Port u). now split. }
    destruct (String.eqb_spec (url.Scheme u) "tls") as [Etls|_].
    { right. simpl. destruct (String.eqb_spec (url.Port u) "") as [_|Hp]; simpl.
      - split; [tauto|]. exists (url.Hostname u), "853". now split.
      - split; [tauto|]. exists (url.Hostname u), (url.Port u). now split. }
    destruct (String.eqb_spec (url.Scheme u) "https") as [Ehttps|_]; simpl.
    + left. split; [reflexivity|]. exists u. now repeat split.
    + right. split; [tauto|]. exists n, "53". now split.
  - right. split; [tauto|]. exists n, "53". now split.
Qed.

End ClassifierMore.

Lemma X12_classify_fallback_witness :
  match url.Parse (Lib:=urlref.lib) "ftp://example.com" with
  | inl u => ~ In (url.Scheme u) known_schemes
  | inr _ => True
  end
  /\ fst (doggo.initNameserver (U:=urlref.lib) "ftp://example.com")
     = {| doggo.Address := "[ftp://example.com]:53"; doggo.Type_ := "udp" |}.
Proof.
  assert (H : match url.Parse (Lib:=urlref.lib) "ftp://example.com" with
              | inl u => ~ In (url.Scheme u) known_schemes
              | inr _ => True
              end).
  { vm_compute. intros [H|[H|[H|[H|[]]]]]; discriminate. }
  split; [exact H|].
  exact (X12_classify_fallback (U:=urlref.lib) "ftp://example.com" H).
Defined.

(** X14: when the system configuration is read, there is one endpoint for
    each of its addresses, in order, each udp at the address joined to port
    53, and ndots and the search list are handed on as they are; when it is
    not, the error is handed on with no endpoint, ndots 0 and no search
    list, whatever came with the error. *)
Theorem X14_default_servers {C : config.Lib} :
  match system_failure with
  | None =>
      doggo.getDefaultServers
        = (map (fun s => {| doggo.Address := net.JoinHostPort s "53";
                            doggo.Type_ := "udp" |}) system_servers,
           system_ndots, system_search, None)
  | Some err => doggo.getDefaultServers = ([], 0, [], Some err)
  end.
Proof.
  unfold doggo.getDefaultServers, system_failure, system_servers, system_ndots,
    system_search.
  destruct config.GetDefaultServers as [[[servers ndots] search] [err|]]; simpl.
  - reflexivity.
  - now rewrite (fold_left_snoc
                   (fun s => {| doggo.Address := net.JoinHostPort s "53";
                                doggo.Type_ := "udp" |})).
Qed.

(** ** loadNameservers *)

Section LoaderMore.
Context {U : url.Lib}.

(** Whether the loop ends with an error does not depend on the hub. *)
Lemma loop_error_hub (srvs : list string) (hub hub' : doggo.Hub) :
  snd (doggo.loadUserNameservers srvs hub) = snd (doggo.loadUserNameservers srvs hub').
Proof.
  revert hub hub'; induction srvs as [|srv srvs IH]; intros hub hub'; simpl;
    [reflexivity|].
  destruct (doggo.initNameserver srv) as [ns [err|]]; simpl; [reflexivity|].
  apply IH.
Qed.

(** A loop without an error appends the endpoints that pass its test. *)
Lemma loop_kept (srvs : list string) (hub : doggo.Hub) :
  snd (doggo.loadUserNameservers srvs hub) = None ->
  doggo.Nameservers (fst (doggo.loadUserNameservers srvs hub))
  = doggo.Nameservers hub ++ kept_endpoints srvs.
Proof.
  unfold kept_endpoints.
  revert hub; induction srvs as [|srv srvs IH]; intros hub; simpl.
  - intros _. now rewrite app_nil_r.
  - destruct (doggo.initNameserver srv) as [ns [err|]]; simpl; [discriminate|].
    intros Hok. rewrite (IH _ Hok).
    destruct (negb (doggo.Address ns =? "")%string
              && negb (doggo.Type_ ns =? "")%string)%bool; simpl.
    + now rewrite <- app_assoc.
    + reflexivity.
Qed.

(** The loop only appends, also when it ends with an error. *)
Lemma loop_appends (srvs : list string) (hub : doggo.Hub) :
  exists added,
    doggo.Nameservers (fst (doggo.loadUserNameservers srvs hub))
    = doggo.Nameservers hub ++ added.
Proof.
  revert hub; induction srvs as [|srv srvs IH]; intros hub; simpl.
  - exists []. now rewrite app_nil_r.
  - destruct (doggo.initNameserver srv) as [ns [err|]]; simpl.
    + exists []. now rewrite app_nil_r.
    + destruct (negb (doggo.Address ns =? "")%string
                && negb (doggo.Type_ ns =? "")%string)%bool.
      * destruct (IH (doggo.with_Nameservers hub (doggo.Nameservers hub ++ [ns])))
          as [added Hadded].
        exists (ns :: added). rewrite Hadded. simpl. now rewrite <- app_assoc.
      * apply IH.
Qed.

(** An error of the loop names a string of the list that does not parse. *)
Lemma loop_error_names (srvs : list string) (hub : doggo.Hub) (e : error) :
  snd (doggo.loadUserNameservers srvs hub) = Some e ->
  exists srv, In srv srvs /\ (exists err, url.Parse srv = inr err)
              /\ e = ("error parsing nameserver: " ++ srv)%string.
Proof.
  revert hub; induction srvs as [|srv srvs IH]; intros hub; simpl; [discriminate|].
  unfold doggo.initNameserver at 1.
  destruct (url.Parse srv) as [u|err] eqn:Hparse; simpl.
  - intros He. destruct (IH _ He) as (srv' & Hin & Hbad & Hmsg).
    exists srv'. split; [now right | now split].
  - intros [= <-]. exists srv. split; [now left|]. split; [now exists err|].
    now rewrite append_empty_r.
Qed.

Context {C : config.Lib}.

Lemma load_flags (hub : doggo.Hub) :
  doggo.Flags (fst (doggo.loadNameservers hub)) = doggo.Flags hub.
Proof.
  unfold doggo.loadNameservers.
  destruct (loadUserNameservers_options (doggo.QF_Nameservers (doggo.Flags hub)) hub)
    as [Hflags _].
  destruct (doggo.loadUserNameservers (doggo.QF_Nameservers (doggo.Flags hub)) hub)
    as [hub1 [err|]]; simpl in *; [exact Hflags|].
  destruct (length (doggo.Nameservers hub1) =? 0)%nat; [|exact Hflags].
  destruct doggo.getDefaultServers as [[[ns ndots] search] [err|]]; simpl;
    [exact Hflags|].
  destruct (doggo.QF_Ndots (doggo.Flags hub1) =? 0); simpl;
    destruct ((0 <? length search)%nat && doggo.QF_UseSearchList (doggo.Flags hub1))%bool;
    simpl; exact Hflags.
Qed.

(** X15: the load only ever appends to the endpoint list of the hub: the
    endpoints that were there stay, in their order, at the front, whether
    the load ends with an error or not. *)
Theorem X15_load_appends (hub : doggo.Hub) :
  exists added,
    doggo.Nameservers (fst (doggo.loadNameservers hub))
    = doggo.Nameservers hub ++ added.
Proof.
  unfold doggo.loadNameservers.
  destruct (loop_appends (doggo.QF_Nameservers (doggo.Flags hub)) hub) as [added Hadded].
  destruct (doggo.loadUserNameservers (doggo.QF_Nameservers (doggo.Flags hub)) hub)
    as [hub1 [err|]]; simpl in *; [now exists added|].
  destruct (length (doggo.Nameservers hub1) =? 0)%nat; [|now exists added].
  destruct doggo.getDefaultServers as [[[ns ndots] search] [err|]]; simpl;
    [now exists added|].
  exists (added ++ ns).
  destruct (doggo.QF_Ndots (doggo.Flags hub1) =? 0); simpl;
    destruct ((0 <? length search)%nat && doggo.QF_UseSearchList (doggo.Flags hub1))%bool;
    simpl; rewrite Hadded; now rewrite app_assoc.
Qed.

(** X16: the load has two errors and no other.  Either a string of the
    user's list does not parse and the error names that string, or the
    loop over the list left no endpoint, the system configuration could not
    be read, and the error says so without the cause. *)
Theorem X16_load_errors (hub : doggo.Hub) (e : error) :
  snd (doggo.loadNameservers hub) = Some e ->
  (exists srv, In srv (doggo.QF_Nameservers (doggo.Flags hub))
               /\ (exists err, url.Parse srv = inr err)
               /\ e = ("error parsing nameserver: " ++ srv)%string)
  \/ (falls_back hub /\ system_failure <> None
      /\ e = "error fetching system default nameserver").
Proof.
  unfold doggo.loadNameservers, falls_back. rewrite getDefaultServers_eq.
  pose proof (loop_error_names (doggo.QF_Nameservers (doggo.Flags hub)) hub) as Hnames.
  destruct (doggo.loadUserNameservers (doggo.QF_Nameservers (doggo.Flags hub)) hub)
    as [hub1 [err|]]; simpl in *.
  - intros [= <-]. left. now apply Hnames.
  - destruct (doggo.Nameservers hub1) as [|ns1 rest]; simpl; [|discriminate].
    destruct system_failure as [err|]; simpl.
    + intros [= <-]. right. repeat split. discriminate.
    + destruct (doggo.QF_Ndots (doggo.Flags hub1) =? 0); simpl;
        destruct ((0 <? length system_search)%nat
                  && doggo.QF_UseSearchList (doggo.Flags hub1))%bool;
        discriminate.
Qed.

(** X18: when the loop over the user's list leaves no endpoint, the load
    is decided by the system configuration: read, it gives no error and
    exactly the endpoints of the system's addresses; not read, it gives its
    error and the hub is left exactly as it was. *)
Theorem X18_load_fallback (hub : doggo.Hub) :
  falls_back hub ->
  match system_failure with
  | None =>
      snd (doggo.loadNameservers hub) = None
      /\ doggo.Nameservers (fst (doggo.loadNameservers hub))
         = map default_endpoint system_servers
  | Some _ =>
      doggo.loadNameservers hub
      = (hub, Some "error fetching system default nameserver")
  end.
Proof.
  unfold falls_back, doggo.loadNameservers. rewrite getDefaultServers_eq.
  destruct (loadUserNameservers_options (doggo.QF_Nameservers (doggo.Flags hub)) hub)
    as [Hflags Hopts].
  destruct (loop_appends (doggo.QF_Nameservers (doggo.Flags hub)) hub) as [added Hadded].
  destruct (doggo.loadUserNameservers (doggo.QF_Nameservers (doggo.Flags hub)) hub)
    as [hub1 err1]; simpl in *.
  intros [-> Hempty]. rewrite Hempty. simpl.
  destruct system_failure as [err|]; simpl.
  - f_equal. rewrite Hempty in Hadded. symmetry in Hadded.
    apply app_eq_nil in Hadded. destruct Hadded as [Hnone _].
    destruct hub1, hub; simpl in *; subst. reflexivity.
  - split; [reflexivity|].
    destruct (doggo.QF_Ndots (doggo.Flags hub1) =? 0); simpl;
      destruct ((0 <? length system_search)%nat
                && doggo.QF_UseSearchList (doggo.Flags hub1))%bool;
      simpl; now rewrite Hempty.
Qed.

(** X19: with an empty list from the user, a load that left an endpoint
    is not changed by loading again: the second load changes nothing and
    gives no error. *)
Theorem X19_load_again_empty_list (hub : doggo.Hub) :
  doggo.QF_Nameservers (doggo.Flags hub) = [] ->
  doggo.Nameservers (fst (doggo.loadNameservers hub)) <> [] ->
  doggo.loadNameservers (fst (doggo.loadNameservers hub))
  = (fst (doggo.loadNameservers hub), None).
Proof.
  intros Hlist Hnonempty.
  pose proof (load_flags hub) as Hflags.
  remember (fst (doggo.loadNameservers hub)) as hub' eqn:Hhub'.
  unfold doggo.loadNameservers at 1. rewrite Hflags, Hlist. simpl.
  destruct (doggo.Nameservers hub'); [now elim Hnonempty | reflexivity].
Qed.

(** X20: with strings from the user the load is not idempotent: when a
    load gives no error and the list has an endpoint that passes the test,
    loading again gives no error and appends the endpoints of the list a
    second time. *)
Theorem X20_load_again_duplicates (hub : doggo.Hub) :
  snd (doggo.loadNameservers hub) = None ->
  kept_endpoints (doggo.QF_Nameservers (doggo.Flags hub)) <> [] ->
  snd (doggo.loadNameservers (fst (doggo.loadNameservers hub))) = None
  /\ doggo.Nameservers (fst (doggo.loadNameservers (fst (doggo.loadNameservers hub))))
     = doggo.Nameservers hub
       ++ kept_endpoints (doggo.QF_Nameservers (doggo.Flags hub))
       ++ kept_endpoints (doggo.QF_Nameservers (doggo.Flags hub)).
Proof.
  intros Hok Hkept.
  assert (Hnot_nil : forall l : list doggo.Nameserver,
             l ++ kept_endpoints (doggo.QF_Nameservers (doggo.Flags hub)) <> []).
  { intros l H. apply app_eq_nil in H. now destruct H. }
  assert (Hfirst : snd (doggo.loadUserNameservers
                          (doggo.QF_Nameservers (doggo.Flags hub)) hub) = None
                   /\ fst (doggo.loadNameservers hub)
                      = fst (doggo.loadUserNameservers
                               (doggo.QF_Nameservers (doggo.Flags hub)) hub)).
  { revert Hok. unfold doggo.loadNameservers.
    pose proof (loop_kept (doggo.QF_Nameservers (doggo.Flags hub)) hub) as Hk.
    destruct (doggo.loadUserNameservers (doggo.QF_Nameservers (doggo.Flags hub)) hub)
      as [hub1 [err|]]; simpl in *; [discriminate|].
    intros _. specialize (Hk eq_refl).
    destruct (doggo.Nameservers hub1) as [|ns1 rest] eqn:Hns; simpl.
    - exfalso. symmetry in Hk. now apply Hnot_nil in Hk.
    - now split. }
  destruct Hfirst as [Hloop Hhub'].
  pose proof (loop_kept _ _ Hloop) as Hk1.
  pose proof (load_flags hub) as Hflags.
  remember (fst (doggo.loadNameservers hub)) as hub' eqn:Hdef.
  assert (Hloop' : snd (doggo.loadUserNameservers
                          (doggo.QF_Nameservers (doggo.Flags hub)) hub') = None).
  { now rewrite (loop_error_hub _ hub' hub). }
  pose proof (loop_kept _ _ Hloop') as Hk2.
  unfold doggo.loadNameservers. rewrite Hflags.
  destruct (doggo.loadUserNameservers (doggo.QF_Nameservers (doggo.Flags hub)) hub')
    as [hub2 err2]; simpl in *. subst err2.
  rewrite Hhub', Hk1 in Hk2.
  destruct (doggo.Nameservers hub2) as [|ns2 rest] eqn:Hns2; simpl.
  - exfalso. symmetry in Hk2. now apply Hnot_nil in Hk2.
  - split; [reflexivity|]. rewrite Hns2, Hk2. now rewrite app_assoc.
Qed.

End LoaderMore.

(** X17: when the loop over the user's list ends with an error or leaves
    an endpoint, the system configuration plays no part: the load gives the
    same hub and the same error under every system configuration. *)
Theorem X17_load_without_system {U : url.Lib} (C C' : config.Lib) (hub : doggo.Hub) :
  ~ falls_back hub ->
  doggo.loadNameservers (C:=C) hub = doggo.loadNameservers (C:=C') hub.
Proof.
  unfold falls_back, doggo.loadNameservers.
  destruct (doggo.loadUserNameservers (doggo.QF_Nameservers (doggo.Flags hub)) hub)
    as [hub1 [err|]]; simpl; [reflexivity|].
  destruct (doggo.Nameservers hub1) as [|ns1 rest]; simpl; [|reflexivity].
  intros Hnot. elim Hnot. now split.
Qed.

Lemma X16_load_errors_witness :
  snd (doggo.loadNameservers (U:=urlref.lib) (C:=system_error) (fresh_hub [] 0 false))
    = Some "error fetching system default nameserver"
  /\ ((exists srv, In srv (doggo.QF_Nameservers (doggo.Flags (fresh_hub [] 0 false)))
                   /\ (exists err, url.Parse (Lib:=urlref.lib) srv = inr err)
                   /\ "error fetching system default nameserver"
                      = ("error parsing nameserver: " ++ srv)%string)
      \/ (falls_back (U:=urlref.lib) (fresh_hub [] 0 false)
          /\ system_failure (C:=system_error) <> None
          /\ "error fetching system default nameserver"
             = "error fetching system default nameserver")).
Proof.
  split.
  - reflexivity.
  - exact (X16_load_errors (U:=urlref.lib) (C:=system_error) (fresh_hub [] 0 false)
             "error fetching system default nameserver" eq_refl).
Defined.

Lemma X17_load_without_system_witness :
  ~ falls_back (U:=urlref.lib) (fresh_hub ["8.8.8.8"] 0 true)
  /\ doggo.loadNameservers (U:=urlref.lib) (C:=system_one) (fresh_hub ["8.8.8.8"] 0 true)
     = doggo.loadNameservers (U:=urlref.lib) (C:=system_error) (fresh_hub ["8.8.8.8"] 0 true).
Proof.
  assert (H : ~ falls_back (U:=urlref.lib) (fresh_hub ["8.8.8.8"] 0 true)).
  { intros [_ H]. vm_compute in H. discriminate. }
  split; [exact H|].
  exact (X17_load_without_system (U:=urlref.lib) system_one system_error
           (fresh_hub ["8.8.8.8"] 0 true) H).
Defined.

Lemma X18_load_fallback_witness :
  falls_back (U:=urlref.lib) (fresh_hub [] 0 false)
  /\ snd (doggo.loadNameservers (U:=urlref.lib) (C:=system_one) (fresh_hub [] 0 false)) = None
  /\ doggo.Nameservers
       (fst (doggo.loadNameservers (U:=urlref.lib) (C:=system_one) (fresh_hub [] 0 false)))
     = [ {| doggo.Address := "127.0.0.53:53"; doggo.Type_ := "udp" |} ].
Proof.
  assert (H : falls_back (U:=urlref.lib) (fresh_hub [] 0 false)) by (split; reflexivity).
  split; [exact H|].
  exact (X18_load_fallback (U:=urlref.lib) (C:=system_one) (fresh_hub [] 0 false) H).
Defined.

Lemma X19_load_again_empty_list_witness :
  doggo.QF_Nameservers (doggo.Flags (fresh_hub [] 0 false)) = []
  /\ doggo.Nameservers
       (fst (doggo.loadNameservers (U:=urlref.lib) (C:=system_one) (fresh_hub [] 0 false)))
     <> []
  /\ doggo.loadNameservers (U:=urlref.lib) (C:=system_one)
       (fst (doggo.loadNameservers (U:=urlref.lib) (C:=system_one) (fresh_hub [] 0 false)))
     = (fst (doggo.loadNameservers (U:=urlref.lib) (C:=system_one) (fresh_hub [] 0 false)),
        None).
Proof.
  assert (H : doggo.Nameservers
                (fst (doggo.loadNameservers (U:=urlref.lib) (C:=system_one)
                        (fresh_hub [] 0 false))) <> []).
  { vm_compute. discriminate. }
  split; [reflexivity|]. split; [exact H|].
  exact (X19_load_again_empty_list (U:=urlref.lib) (C:=system_one)
           (fresh_hub [] 0 false) eq_refl H).
Defined.

Lemma X20_load_again_duplicates_witness :
  snd (doggo.loadNameservers (U:=urlref.lib) (C:=system_one) (fresh_hub ["8.8.8.8"] 0 false))
    = None
  /\ kept_endpoints (U:=urlref.lib)
       (doggo.QF_Nameservers (doggo.Flags (fresh_hub ["8.8.8.8"] 0 false))) <> []
  /\ doggo.Nameservers
       (fst (doggo.loadNameservers (U:=urlref.lib) (C:=system_one)
               (fst (doggo.loadNameservers (U:=urlref.lib) (C:=system_one)
                       (fresh_hub ["8.8.8.8"] 0 false)))))
     = [ {| doggo.Address := "8.8.8.8:53"; doggo.Type_ := "udp" |};
         {| doggo.Address := "8.8.8.8:53"; doggo.Type_ := "udp" |} ].
Proof.
  assert (H : kept_endpoints (U:=urlref.lib)
                (doggo.QF_Nameservers (doggo.Flags (fresh_hub ["8.8.8.8"] 0 false))) <> []).
  { vm_compute. discriminate. }
  split; [reflexivity|]. split; [exact H|].
  exact (proj2 (X20_load_again_duplicates (U:=urlref.lib) (C:=system_one)
                  (fresh_hub ["8.8.8.8"] 0 false) eq_refl H)).
Defined.

(** X21: a load that gives no error and finds an endpoint, already in the
    hub or from the user's strings, changes the hub in one place only: the
    endpoints of the strings that pass the test are appended, in the order
    of the strings; the flags and the resolver options stay, under every
    system configuration. *)
Theorem X21_load_user_endpoints {U : url.Lib} {C : config.Lib} (hub : doggo.Hub) :
  snd (doggo.loadNameservers hub) = None ->
  doggo.Nameservers hub ++ kept_endpoints (doggo.QF_Nameservers (doggo.Flags hub)) <> [] ->
  fst (doggo.loadNameservers hub)
  = doggo.with_Nameservers hub
      (doggo.Nameservers hub ++ kept_endpoints (doggo.QF_Nameservers (doggo.Flags hub))).
Proof.
  unfold doggo.loadNameservers.
  pose proof (loop_kept (doggo.QF_Nameservers (doggo.Flags hub)) hub) as Hk.
  destruct (loadUserNameservers_options (doggo.QF_Nameservers (doggo.Flags hub)) hub)
    as [Hflags Hopts].
  destruct (doggo.loadUserNameservers (doggo.QF_Nameservers (doggo.Flags hub)) hub)
    as [hub1 [err|]]; simpl in *; [discriminate|].
  specialize (Hk eq_refl). intros _ Hnonempty. rewrite <- Hk in *.
  destruct (doggo.Nameservers hub1) as [|ns1 rest] eqn:Hns; simpl;
    [now elim Hnonempty|].
  destruct hub1, hub; simpl in *; subst. reflexivity.
Qed.

Lemma X21_load_user_endpoints_witness :
  snd (doggo.loadNameservers (U:=urlref.lib) (C:=system_one)
         (fresh_hub ["tcp://9.9.9.9:5353"; "8.8.8.8"] 0 true)) = None
  /\ doggo.Nameservers (fresh_hub ["tcp://9.9.9.9:5353"; "8.8.8.8"] 0 true)
     ++ kept_endpoints (U:=urlref.lib)
          (doggo.QF_Nameservers
             (doggo.Flags (fresh_hub ["tcp://9.9.9.9:5353"; "8.8.8.8"] 0 true))) <> []
  /\ fst (doggo.loadNameservers (U:=urlref.lib) (C:=system_one)
            (fresh_hub ["tcp://9.9.9.9:5353"; "8.8.8.8"] 0 true))
     = doggo.with_Nameservers (fresh_hub ["tcp://9.9.9.9:5353"; "8.8.8.8"] 0 true)
         [ {| doggo.Address := "9.9.9.9:5353"; doggo.Type_ := "tcp" |};
           {| doggo.Address := "8.8.8.8:53"; doggo.Type_ := "udp" |} ].
Proof.
  assert (H : doggo.Nameservers (fresh_hub ["tcp://9.9.9.9:5353"; "8.8.8.8"] 0 true)
              ++ kept_endpoints (U:=urlref.lib)
                   (doggo.QF_Nameservers
                      (doggo.Flags (fresh_hub ["tcp://9.9.9.9:5353"; "8.8.8.8"] 0 true)))
              <> []).
  { vm_compute. discriminate. }
  split; [reflexivity|]. split; [exact H|].
  exact (X21_load_user_endpoints (U:=urlref.lib) (C:=system_one)
           (fresh_hub ["tcp://9.9.9.9:5353"; "8.8.8.8"] 0 true) eq_refl H).
Defined.


(** X22: the one way to an empty endpoint list without an error.  The
    load returns no error and leaves no endpoint exactly when the loop over
    the user's strings ended without an error and without an endpoint and
    the system configuration was read and lists no address.  On every
    other input a load without an error leaves at least one endpoint. *)
Theorem X22_load_empty_exactly {U : url.Lib} {C : config.Lib} (hub : doggo.Hub) :
  (snd (doggo.loadNameservers hub) = None
   /\ doggo.Nameservers (fst (doggo.loadNameservers hub)) = [])
  <-> (falls_back hub /\ system_failure = None /\ system_servers = []).
Proof.
  unfold falls_back, doggo.loadNameservers. rewrite getDefaultServers_eq.
  destruct (doggo.loadUserNameservers (doggo.QF_Nameservers (doggo.Flags hub)) hub)
    as [hub1 [err|]]; simpl.
  - split; [intros [Habs _] | intros [[Habs _] _]]; discriminate.
  - destruct (doggo.Nameservers hub1) as [|ns1 rest] eqn:Hns; simpl.
    + destruct system_failure as [err|]; simpl.
      * split; [intros [Habs _] | intros (_ & Habs & _)]; discriminate.
      * assert (Hlist : doggo.Nameservers
                          (if ((0 <? length system_search)%nat
                               && doggo.QF_UseSearchList
                                    (doggo.Flags
                                       (if doggo.QF_Ndots (doggo.Flags hub1) =? 0
                                        then doggo.with_Ndots hub1 system_ndots
                                        else hub1)))%bool
                           then doggo.with_SearchList
                                  (if doggo.QF_Ndots (doggo.Flags hub1) =? 0
                                   then doggo.with_Ndots hub1 system_ndots
                                   else hub1) system_search
                           else (if doggo.QF_Ndots (doggo.Flags hub1) =? 0
                                 then doggo.with_Ndots hub1 system_ndots
                                 else hub1))
                        = []).
        { destruct (doggo.QF_Ndots (doggo.Flags hub1) =? 0); simpl;
            destruct ((0 <? length system_search)%nat
                      && doggo.QF_UseSearchList (doggo.Flags hub1))%bool;
            simpl; exact Hns. }
        rewrite Hlist. simpl. split.
        -- intros [_ Hmap]. repeat split.
           destruct system_servers; [reflexivity | discriminate].
        -- intros (_ & _ & ->). split; reflexivity.
    + split.
      * intros [_ Habs]. rewrite Hns in Habs. discriminate.
      * intros [[_ Habs] _]. discriminate.
Qed.
